(** * IndeterminateBeam: loads, supports and the beam container

    A shallow embedding of [indeterminatebeam/loading.py] and of the
    [Support] and [Beam] classes of
    [indeterminatebeam/indeterminatebeam.py].

    Numbers are rationals ([Q]); Python's [==] on numbers is [Qeq_bool].
    Exceptions are explicit: a constructor returns a [result], a method
    that mutates the beam returns the beam it leaves behind together
    with what the call produced. *)

From Stdlib Require Import QArith Qabs Qround ZArith List Bool Lia Lqa.
From Stdlib Require Import Field.
Import ListNotations.

Local Open Scope Q_scope.

(** ** Python values and exceptions *)

Module Py.

Inductive exn : Type :=
| ValueError
| TypeError.

Inductive result (A : Type) : Type :=
| Ok (a : A)
| Raise (e : exn).

Arguments Ok {A} a.
Arguments Raise {A} e.

Definition bind {A B : Type} (r : result A) (k : A -> result B) : result B :=
  match r with
  | Ok a => k a
  | Raise e => Raise e
  end.

Definition raised {A : Type} (r : result A) : bool :=
  match r with
  | Ok _ => false
  | Raise _ => true
  end.

(** [a < b] on numbers. *)
Definition Qltb (a b : Q) : bool := negb (Qle_bool b a).

(** [round(q, ndigits)]: to the nearest multiple of [10^-ndigits], a tie
    going to the even neighbour. *)
Definition round (q : Q) (ndigits : nat) : Q :=
  let scale := inject_Z (10 ^ Z.of_nat ndigits) in
  let n := q * scale in
  let f := Qfloor n in
  let d := n - inject_Z f in
  let r :=
    if Qeq_bool d (1 # 2) then (if Z.even f then f else (f + 1)%Z)
    else if Qle_bool d (1 # 2) then f
    else (f + 1)%Z in
  inject_Z r / scale.

(** [abs(round(q, ndigits)) > 0], the test every load constructor uses to
    drop a projection that is numerically nil. *)
Definition significant (q : Q) (ndigits : nat) : bool :=
  Qltb 0 (Qabs (round q ndigits)).

(** Modelled from the spec: [data_validation.assert_positive_number],
    whose module is not among the sources.  The spec lists a "negative
    coordinate" among the validation errors, and the constructors pass
    their default coordinate [0] through it, so it rejects exactly the
    numbers below zero. *)
Definition assert_positive_number (n : Q) : result unit :=
  if Qltb n 0 then Raise ValueError else Ok tt.

(** Modelled from the spec: [data_validation.assert_strictly_positive_number],
    whose module is not among the sources.  The spec lists "zero/negative
    span" and "non-positive section property" among the validation
    errors, so it rejects the numbers that are not above zero. *)
Definition assert_strictly_positive_number (n : Q) : result unit :=
  if Qle_bool n 0 then Raise ValueError else Ok tt.

End Py.

Import Py.

Declare Scope py_scope.
Notation "x <- r ;; k" := (bind r (fun x => k))
  (at level 61, r at next level, right associativity) : py_scope.
Notation "r ;;; k" := (bind r (fun _ => k))
  (at level 61, right associativity) : py_scope.
Local Open Scope py_scope.

(** ** The fragment of sympy the load classes use

    An expression in the beam coordinate [x] is a sum of terms, each a
    rational coefficient times either a power of [x] or a singularity
    function [SingularityFunction(x, a, n)]. *)

Module Sympy.

Inductive xfun : Type :=
| XPow (k : nat)
| SingularityFunction (a : Q) (n : Z).

Definition term : Type := (Q * xfun)%type.
Definition expr : Type := list term.

(** The Python integer [0] in a position where an expression is expected. *)
Definition zero : expr := [].

Definition scale (c : Q) (e : expr) : expr :=
  map (fun t : term => (c * fst t, snd t)) e.

Definition add (e1 e2 : expr) : expr := e1 ++ e2.

Definition sub (e1 e2 : expr) : expr := e1 ++ scale (-1) e2.

(** [sum(es)], starting from the integer [0]. *)
Definition sum (es : list expr) : expr := fold_right add zero es.

(** [integrate(e, x)]: term by term; a singularity function of negative
    order is raised by one without a divisor. *)
Definition integrate_term (t : term) : term :=
  match snd t with
  | XPow k => (fst t / inject_Z (Z.of_nat (S k)), XPow (S k))
  | SingularityFunction a n =>
      if (n <? 0)%Z then (fst t, SingularityFunction a (n + 1))
      else (fst t / inject_Z (n + 1), SingularityFunction a (n + 1))
  end.

Definition integrate (e : expr) : expr := map integrate_term e.

(** The Macaulay bracket of a non-negative order at a point. *)
Definition macaulay (a : Q) (n : nat) (t : Q) : Q :=
  if Qle_bool a t then (t - a) ^ Z.of_nat n else 0.

(** A primitive of [f(x) * x] for each kind of term, evaluated at [t]:
    [x = (x - a) + a] splits the product with a bracket of order [n >= 0];
    the orders [-1] and [-2] are the point force and the point couple. *)
Definition moment_primitive (f : xfun) (t : Q) : Q :=
  match f with
  | XPow k => t ^ Z.of_nat (k + 2) / inject_Z (Z.of_nat (k + 2))
  | SingularityFunction a n =>
      match n with
      | Z0 => macaulay a 2 t / 2 + a * macaulay a 1 t
      | Zpos p =>
          let m := Pos.to_nat p in
          macaulay a (m + 2) t / inject_Z (Z.of_nat (m + 2))
          + a * macaulay a (m + 1) t / inject_Z (Z.of_nat (m + 1))
      | Zneg 1 => a * macaulay a 0 t
      | Zneg 2 => - macaulay a 0 t
      | Zneg _ => 0
      end
  end.

(** [integrate(e * x, (x, lo, hi))]. *)
Definition moment_integral (e : expr) (lo hi : Q) : Q :=
  fold_right
    (fun (t : term) acc =>
       fst t * (moment_primitive (snd t) hi - moment_primitive (snd t) lo) + acc)
    0 e.

End Sympy.

Import Sympy.

(** ** [loading.py]: the load classes *)

Module Loading.

(** What a load object remembers of its constructor's arguments. *)
Inductive attributes : Type :=
| PointTorqueAttrs (position force : Q)
| PointLoadAttrs (position force angle : Q)
| UDLAttrs (expr : expr) (span : Q * Q) (force angle : Q)
| TrapezoidalLoadAttrs (expr : expr) (span : Q * Q) (force : Q * Q) (angle : Q)
| DistributedLoadAttrs (span : Q * Q) (expr : expr) (angle : Q).

Record Load : Type := mkLoad {
  _x0 : expr;   (* axial intensity w_x(x) *)
  _y0 : expr;   (* transverse intensity w_y(x) *)
  _x1 : expr;   (* normal force *)
  _y1 : expr;   (* shear force *)
  _m0 : Q;      (* moment of the load about x = 0 *)
  attrs : attributes
}.

Section Projection.

(** [cos(radians(angle))] and [sin(radians(angle))]: sympy's functions on
    math's conversion of degrees, both outside the repository. *)
Variables cos_deg sin_deg : Q -> Q.

(** [Load._add_load_functions]: the four functions every load carries. *)
Definition _add_load_functions (angle : Q) (e : expr)
  : expr * expr * expr * expr :=
  let force_x := cos_deg angle in
  let force_y := sin_deg angle in
  let x0 := if significant force_x 8 then scale force_x e else zero in
  let y0 := if significant force_y 8 then scale force_y e else zero in
  let x1 := integrate x0 in
  let y1 := integrate y0 in
  (x0, y0, x1, y1).

Definition with_functions (fs : expr * expr * expr * expr) (m0 : Q)
  (a : attributes) : Load :=
  let '(x0, y0, x1, y1) := fs in mkLoad x0 y0 x1 y1 m0 a.

Definition PointTorque (force coord : Q) : result Load :=
  assert_positive_number coord ;;;
  let e := scale force [(1, SingularityFunction coord (-1))] in
  let angle := 90 in
  let fs := _add_load_functions angle e in
  Ok (with_functions fs force (PointTorqueAttrs coord force)).

Definition PointLoad (force coord angle : Q) : result Load :=
  assert_positive_number coord ;;;
  let e := scale force [(1, SingularityFunction coord (-1))] in
  let fs := _add_load_functions angle e in
  let force_y := sin_deg angle in
  Ok (with_functions fs (force * coord * force_y)
        (PointLoadAttrs coord force angle)).

(** [SingularityFunction(x, span[0], 0) - SingularityFunction(x, span[1], 0)] *)
Definition step_over (span : Q * Q) : expr :=
  sub [(1, SingularityFunction (fst span) 0)]
      [(1, SingularityFunction (snd span) 0)].

Definition UDL (force : Q) (span : Q * Q) (angle : Q) : result Load :=
  assert_positive_number (fst span) ;;;
  assert_strictly_positive_number (snd span - fst span) ;;;
  let e := scale force (step_over span) in
  let fs := _add_load_functions angle e in
  let xa := fst span in
  let length := snd span - fst span in
  let force_y := sin_deg angle in
  Ok (with_functions fs (force * length * (xa + length / 2) * force_y)
        (UDLAttrs e span force angle)).

(** The ramp of a trapezoidal load, present only when its end values
    differ. *)
Definition triangular_component (force : Q * Q) (span : Q * Q) : expr :=
  let xa := fst span in
  let xb := snd span in
  let b := snd force - fst force in
  if negb (Qeq_bool (fst force) (snd force)) then
    let slope := b / (snd span - fst span) in
    sum [ scale slope [(1, SingularityFunction xa 1)];
          scale (- b) [(1, SingularityFunction xb 0)];
          scale (- slope) [(1, SingularityFunction xb 1)] ]
  else zero.

Definition TrapezoidalLoad (force : Q * Q) (span : Q * Q) (angle : Q)
  : result Load :=
  assert_positive_number (fst span) ;;;
  assert_strictly_positive_number (snd span - fst span) ;;;
  let xa := fst span in
  let xb := snd span in
  let b := snd force - fst force in
  let length := xb - xa in
  let UDL_component := scale (fst force) (step_over span) in
  let e := add (triangular_component force span) UDL_component in
  let fs := _add_load_functions angle e in
  let UDL_m0 := (fst force * length) * (xa + length / 2) in
  let triangle_m0 := (b * length / 2) * (xa + length * 2 / 3) in
  let force_y := sin_deg angle in
  Ok (with_functions fs ((UDL_m0 + triangle_m0) * force_y)
        (TrapezoidalLoadAttrs e span force angle)).

Definition DistributedLoad (e : expr) (span : Q * Q) (angle : Q)
  : result Load :=
  assert_positive_number (fst span) ;;;
  assert_strictly_positive_number (snd span - fst span) ;;;
  let fs := _add_load_functions angle e in
  let '(_, y0, _, _) := fs in
  Ok (with_functions fs (moment_integral y0 0 (snd span))
        (DistributedLoadAttrs span e angle)).

End Projection.

(** The load's own expression, for the classes that keep one. *)
Definition expr_of (l : Load) : option expr :=
  match attrs l with
  | UDLAttrs e _ _ _ => Some e
  | TrapezoidalLoadAttrs e _ _ _ => Some e
  | DistributedLoadAttrs _ e _ => Some e
  | _ => None
  end.

End Loading.

(** ** [indeterminatebeam.py]: supports, loads and the beam *)

Module Indeterminatebeam.

(** *** Objects

    None of the classes of the module defines [__eq__], so [==], [in]
    and [list.remove] compare objects by identity.  Every object
    therefore carries the address it was allocated at. *)

Definition address : Type := nat.

(** A stiffness is a number or sympy's [oo]. *)
Inductive stiffness : Type :=
| Stiff (k : Q)
| oo.

(** [bool(e)] for a stiffness. *)
Definition truthy (e : stiffness) : bool :=
  match e with
  | Stiff k => negb (Qeq_bool k 0)
  | oo => true
  end.

(** [e == oo] *)
Definition is_oo (e : stiffness) : bool :=
  match e with
  | Stiff _ => false
  | oo => true
  end.

Record Support : Type := mkSupport {
  support_addr : address;
  _stiffness : list stiffness;
  _DOF : list Z;
  _fixed : list Z;
  _position : Q;
  _id : option nat
}.

(** [if kx:] on an optional number: neither [None] nor zero. *)
Definition given (k : option Q) : bool :=
  match k with
  | Some v => negb (Qeq_bool v 0)
  | None => false
  end.

Definition validate_if_given (k : option Q) : result unit :=
  match k with
  | Some v => if given k then assert_positive_number v else Ok tt
  | None => Ok tt
  end.

(** [for a in fixed: if a not in [0, 1]: raise ValueError] *)
Definition all_boolean (fixed : list Z) : bool :=
  forallb (fun a => (a =? 0)%Z || (a =? 1)%Z) fixed.

(** [l[i] = v] on a list that has the index. *)
Fixpoint setitem {A : Type} (l : list A) (i : nat) (v : A) : list A :=
  match l, i with
  | [], _ => []
  | _ :: t, O => v :: t
  | h :: t, S j => h :: setitem t j v
  end.

Definition override (k : option Q) (i : nat) (l : list stiffness)
  : list stiffness :=
  match k with
  | Some v => if given k then setitem l i (Stiff v) else l
  | None => l
  end.

(** [Support.__init__], the new object being allocated at [self]. *)
Definition new_Support (self : address) (coord : Q) (fixed : list Z)
  (kx ky : option Q) : result Support :=
  assert_positive_number coord ;;;
  validate_if_given kx ;;;
  validate_if_given ky ;;;
  if negb (all_boolean fixed) then Raise ValueError
  else if negb (length fixed =? 3)%nat then Raise ValueError
  else
    let s0 := map (fun a : Z => if (a =? 0)%Z then Stiff 0 else oo) fixed in
    let s1 := override kx 0 s0 in
    let s2 := override ky 1 s1 in
    Ok {| support_addr := self;
          _stiffness := s2;
          _DOF := map (fun e => if truthy e then 1%Z else 0%Z) s2;
          _fixed := map (fun e => if is_oo e then (if truthy e then 1%Z else 0%Z)
                                  else 0%Z) s2;
          _position := coord;
          _id := None |}.

(** [a._stiffness[i]] *)
Definition stiffness_at (a : Support) (i : nat) : stiffness :=
  nth i (_stiffness a) (Stiff 0).

(** [a._stiffness[i] != 0] *)
Definition restrained (i : nat) (a : Support) : bool :=
  truthy (stiffness_at a i).

(** The load classes of this module; they keep nothing of their
    arguments but the two projected intensities. *)
Inductive class : Type :=
| PointTorque_class
| PointLoad_class
| PointLoadV_class
| PointLoadH_class
| DistributedLoad_class
| DistributedLoadV_class
| DistributedLoadH_class
| UDL_class
| TrapezoidalLoad_class.

Record Load : Type := mkLoad {
  load_addr : address;
  load_class : class;
  _x : expr;
  _y : expr
}.

(** [isinstance(load, (DistributedLoad, UDL, TrapezoidalLoad))] *)
Definition is_distributed (c : class) : bool :=
  match c with
  | DistributedLoad_class | DistributedLoadV_class | DistributedLoadH_class
  | UDL_class | TrapezoidalLoad_class => true
  | _ => false
  end.

(** [isinstance(load, (PointTorque, PointLoad))] *)
Definition is_point (c : class) : bool :=
  match c with
  | PointTorque_class | PointLoad_class | PointLoadV_class
  | PointLoadH_class => true
  | _ => false
  end.

Section Projection.

(** [cos(radians(angle))] and [sin(radians(angle))], both from outside
    the repository; [evalf], which only sets the precision the float is
    kept at, is left out. *)
Variables cos_deg sin_deg : Q -> Q.

Definition new_PointTorque (self : address) (torque coord : Q) : result Load :=
  assert_positive_number coord ;;;
  Ok {| load_addr := self;
        load_class := PointTorque_class;
        _x := zero;
        _y := scale torque [(1, SingularityFunction coord (-1))] |}.

Definition new_PointLoad (self : address) (force coord angle : Q)
  : result Load :=
  assert_positive_number coord ;;;
  let force_x := force * cos_deg angle in
  let force_y := force * sin_deg angle in
  Ok {| load_addr := self;
        load_class := PointLoad_class;
        _x := if significant force_x 5
              then scale force_x [(1, SingularityFunction coord (-1))]
              else zero;
        _y := if significant force_y 5
              then scale force_y [(1, SingularityFunction coord (-1))]
              else zero |}.

End Projection.

(** [left, right = load]: the load classes define no [__iter__], so the
    unpacking raises [TypeError] whatever the load. *)
Definition unpack_pair (load : Load) : result (Q * Q) := Raise TypeError.

(** [load[1]]: the load classes define no [__getitem__], so the
    subscript raises [TypeError] whatever the load. *)
Definition getitem (load : Load) (i : Z) : result Q := Raise TypeError.

(** [==] on objects of the module's classes. *)
Definition same_load (a b : Load) : bool := (load_addr a =? load_addr b)%nat.
Definition same_support (a b : Support) : bool :=
  (support_addr a =? support_addr b)%nat.

(** *** The beam *)

Record Beam : Type := mkBeam {
  _x0 : Q;
  _x1 : Q;
  _loads : list Load;
  _distributed_forces_x : list (Load * list expr);   (* dict, keyed by load *)
  _distributed_forces_y : list (Load * list expr);
  _normal_forces : expr;
  _shear_forces : expr;
  _bending_moments : expr;
  _deflection_equation : option expr;
  _axial_deflection : option expr;
  _query : list Q;
  _supports : list Support;
  _reactions : list (Q * list Q);   (* dict: position -> [x, y, m] *)
  _E : Q;
  _I : Q;
  _A : Q
}.

Definition new_Beam (span E I A : Q) : result Beam :=
  assert_strictly_positive_number span ;;;
  assert_strictly_positive_number E ;;;
  assert_strictly_positive_number I ;;;
  assert_strictly_positive_number A ;;;
  Ok {| _x0 := 0; _x1 := span;
        _loads := [];
        _distributed_forces_x := []; _distributed_forces_y := [];
        _normal_forces := []; _shear_forces := []; _bending_moments := [];
        _deflection_equation := None; _axial_deflection := None;
        _query := []; _supports := []; _reactions := [];
        _E := E; _I := I; _A := A |}.

Definition set_loads (b : Beam) (l : list Load) : Beam :=
  {| _x0 := _x0 b; _x1 := _x1 b; _loads := l;
     _distributed_forces_x := _distributed_forces_x b;
     _distributed_forces_y := _distributed_forces_y b;
     _normal_forces := _normal_forces b; _shear_forces := _shear_forces b;
     _bending_moments := _bending_moments b;
     _deflection_equation := _deflection_equation b;
     _axial_deflection := _axial_deflection b;
     _query := _query b; _supports := _supports b;
     _reactions := _reactions b; _E := _E b; _I := _I b; _A := _A b |}.

Definition set_supports (b : Beam) (l : list Support) : Beam :=
  {| _x0 := _x0 b; _x1 := _x1 b; _loads := _loads b;
     _distributed_forces_x := _distributed_forces_x b;
     _distributed_forces_y := _distributed_forces_y b;
     _normal_forces := _normal_forces b; _shear_forces := _shear_forces b;
     _bending_moments := _bending_moments b;
     _deflection_equation := _deflection_equation b;
     _axial_deflection := _axial_deflection b;
     _query := _query b; _supports := l;
     _reactions := _reactions b; _E := _E b; _I := _I b; _A := _A b |}.

Definition set_query (b : Beam) (l : list Q) : Beam :=
  {| _x0 := _x0 b; _x1 := _x1 b; _loads := _loads b;
     _distributed_forces_x := _distributed_forces_x b;
     _distributed_forces_y := _distributed_forces_y b;
     _normal_forces := _normal_forces b; _shear_forces := _shear_forces b;
     _bending_moments := _bending_moments b;
     _deflection_equation := _deflection_equation b;
     _axial_deflection := _axial_deflection b;
     _query := l; _supports := _supports b;
     _reactions := _reactions b; _E := _E b; _I := _I b; _A := _A b |}.

(** What a call leaves: the value it returned or the exception it
    raised, next to the beam as the call left it. *)
Inductive outcome (A : Type) : Type :=
| Returned (a : A)
| Raised (e : exn).

Arguments Returned {A} a.
Arguments Raised {A} e.

(** [x in l] and [l.remove(x)] for an arbitrary [==]. *)
Fixpoint contains {A : Type} (eqb : A -> A -> bool) (x : A) (l : list A)
  : bool :=
  match l with
  | [] => false
  | h :: t => eqb h x || contains eqb x t
  end.

Fixpoint remove_first {A : Type} (eqb : A -> A -> bool) (x : A) (l : list A)
  : list A :=
  match l with
  | [] => []
  | h :: t => if eqb h x then t else h :: remove_first eqb x t
  end.

(** [Beam.add_loads] *)
Fixpoint add_loads (b : Beam) (loads : list Load) : Beam * outcome unit :=
  match loads with
  | [] => (b, Returned tt)
  | load :: rest =>
      if is_distributed (load_class load) then
        match unpack_pair load with
        | Raise e => (b, Raised e)
        | Ok (left_, right_) =>
            if Qltb left_ (_x0 b) || Qltb (_x1 b) right_
            then (b, Raised ValueError)
            else add_loads (set_loads b (_loads b ++ [load])) rest
        end
      else if is_point (load_class load) then
        match getitem load 1 with
        | Raise e => (b, Raised e)
        | Ok coordinate =>
            if Qltb coordinate (_x0 b) || Qltb (_x1 b) coordinate
            then (b, Raised ValueError)
            else add_loads (set_loads b (_loads b ++ [load])) rest
        end
      else add_loads (set_loads b (_loads b ++ [load])) rest
  end.

(** [Beam.remove_loads] *)
Definition remove_loads (b : Beam) (loads : list Load) (remove_all : bool)
  : Beam * outcome unit :=
  if remove_all then (set_loads b [], Returned tt)
  else
    (fold_left
       (fun (acc : Beam) (load : Load) =>
          if contains same_load load (_loads acc)
          then set_loads acc (remove_first same_load load (_loads acc))
          else acc)
       loads b,
     Returned tt).

(** [Beam.add_supports] *)
Fixpoint add_supports (b : Beam) (supports : list Support)
  : Beam * outcome unit :=
  match supports with
  | [] => (b, Returned tt)
  | support :: rest =>
      if Qltb (_position support) (_x0 b) || Qltb (_x1 b) (_position support)
      then (b, Raised ValueError)
      else
        match _supports b with
        | [] => add_supports (set_supports b (_supports b ++ [support])) rest
        | _ :: _ =>
            if negb (contains Qeq_bool (_position support)
                       (map _position (_supports b)))
            then add_supports (set_supports b (_supports b ++ [support])) rest
            else (b, Raised ValueError)
        end
  end.

(** The loop of [Beam.remove_supports]: [for support in self._supports]
    walks the list by index while the body removes from that same
    list; [fuel] bounds the number of iterations. *)
Fixpoint remove_supports_loop (fuel i : nat) (current : list Support)
  (supports : list Support) : list Support :=
  match fuel with
  | O => current
  | S fuel' =>
      match nth_error current i with
      | None => current
      | Some support =>
          if contains same_support support supports
          then remove_supports_loop fuel' (S i)
                 (remove_first same_support support current) supports
          else remove_supports_loop fuel' (S i) current supports
      end
  end.

(** [Beam.remove_supports] *)
Definition remove_supports (b : Beam) (supports : list Support)
  (remove_all : bool) : Beam * outcome unit :=
  if remove_all then (set_supports b [], Returned tt)
  else
    (set_supports b
       (remove_supports_loop (length (_supports b)) 0 (_supports b) supports),
     Returned tt).

(** *** The opening of [Beam.analyse]: unknowns, the two restraint
    checks and the equations of external equilibrium *)

Inductive channel : Type := axial | transverse | rotational.

(** [symbols("x_" + str(p))], [symbols("y_" + str(p))] and
    [symbols("m_" + str(p))]: an unknown reaction is named by its
    channel and the position of its support. *)
Definition symbol : Type := (channel * Q)%type.

(** A dictionary keyed by positions, in insertion order. *)
Definition dict (V : Type) : Type := list (Q * V).

Fixpoint dict_set {V : Type} (k : Q) (v : V) (d : dict V) : dict V :=
  match d with
  | [] => [(k, v)]
  | (k', v') :: t =>
      if Qeq_bool k' k then (k', v) :: t else (k', v') :: dict_set k v t
  end.

Fixpoint dict_get {V : Type} (k : Q) (d : dict V) : option V :=
  match d with
  | [] => None
  | (k', v') :: t => if Qeq_bool k' k then Some v' else dict_get k t
  end.

(** [{a._position: [symbols(..), a._stiffness[i]]
      for a in self._supports if a._stiffness[i] != 0}] *)
Definition unknowns (c : channel) (i : nat) (b : Beam)
  : dict (symbol * stiffness) :=
  fold_left
    (fun d a =>
       if restrained i a
       then dict_set (_position a) ((c, _position a), stiffness_at a i) d
       else d)
    (_supports b) [].

Definition unknowns_x : Beam -> dict (symbol * stiffness) := unknowns axial 0.
Definition unknowns_y : Beam -> dict (symbol * stiffness) :=
  unknowns transverse 1.
Definition unknowns_m : Beam -> dict (symbol * stiffness) :=
  unknowns rotational 2.

(** [[a[0] for a in d.values()]] *)
Definition symbols_of (d : dict (symbol * stiffness)) : list symbol :=
  map (fun kv => fst (snd kv)) d.

Definition unknowns_ym (b : Beam) : list symbol :=
  symbols_of (unknowns_y b) ++ symbols_of (unknowns_m b).

Definition unknowns_xx (b : Beam) : list symbol := symbols_of (unknowns_x b).

(** The two checks [analyse] makes before it assembles anything. *)
Definition analyse_preconditions (b : Beam) : result unit :=
  if (length (unknowns_xx b) <? 1)%nat then Raise ValueError
  else if (length (unknowns_ym b) <? 2)%nat then Raise ValueError
  else Ok tt.

(** A sympy expression that is a sum of load terms in [x] and of unknown
    reaction symbols; it stands for the equation "expression = 0". *)
Record equation : Type := mkEquation {
  known : expr;
  unknown : list symbol
}.

(** [F_Rx = sum([load._x for load in self._loads])
           + sum([a[0] for a in unknowns_x.values()])] *)
Definition F_Rx (b : Beam) : equation :=
  {| known := sum (map _x (_loads b));
     unknown := symbols_of (unknowns_x b) |}.

(** [F_Ry = sum([load._x for load in self._loads])
           + sum([a[0] for a in unknowns_y.values()])] *)
Definition F_Ry (b : Beam) : equation :=
  {| known := sum (map _x (_loads b));
     unknown := symbols_of (unknowns_y b) |}.

(** The value of an expression free of [x], if it is one. *)
Fixpoint constant_value (e : expr) : option Q :=
  match e with
  | [] => Some 0
  | (c, XPow O) :: t =>
      match constant_value t with
      | Some v => Some (c + v)
      | None => None
      end
  | _ :: _ => None
  end.

(** The left-hand side of an equation under an assignment of the
    unknowns, when its known part is a constant. *)
Definition residual (eq : equation) (assign : symbol -> Q) : option Q :=
  match constant_value (known eq) with
  | Some v => Some (v + fold_right (fun s acc => assign s + acc) 0 (unknown eq))
  | None => None
  end.

(** *** Queries *)

(** What [get_reaction] returns: [None], the list of the three
    reactions, or one of them. *)
Inductive reaction : Type :=
| NoReaction
| AllReactions (r : list Q)
| OneReaction (r : Q).

Definition direction_index (d : channel) : nat :=
  match d with
  | axial => 0
  | transverse => 1
  | rotational => 2
  end.

(** [Beam.get_reaction], for a direction that is absent or one of
    ['x'], ['y'], ['m']. *)
Definition get_reaction (b : Beam) (x_coord : Q) (direction : option channel)
  : result reaction :=
  assert_positive_number x_coord ;;;
  match dict_get x_coord (_reactions b) with
  | None => Ok NoReaction
  | Some r =>
      match direction with
      | Some d => Ok (OneReaction (nth (direction_index d) r 0))
      | None => Ok (AllReactions r)
      end
  end.

(** [Beam.add_query_points]: the [ValueError] is returned, not raised. *)
Fixpoint add_query_points (b : Beam) (x_coords : list Q)
  : Beam * outcome (option exn) :=
  match x_coords with
  | [] => (b, Returned None)
  | x_coord :: rest =>
      if Qle_bool (_x0 b) x_coord && Qle_bool x_coord (_x1 b)
      then add_query_points (set_query b (_query b ++ [x_coord])) rest
      else (b, Returned (Some ValueError))
  end.

(** The loop of [Beam.remove_query_points]. *)
Fixpoint remove_query_points_loop (b : Beam) (x_coords : list Q)
  : Beam * outcome (option exn) :=
  match x_coords with
  | [] => (b, Returned None)
  | x_coord :: rest =>
      if contains Qeq_bool x_coord (_query b)
      then remove_query_points_loop
             (set_query b (remove_first Qeq_bool x_coord (_query b))) rest
      else (b, Returned (Some ValueError))
  end.

(** [Beam.remove_query_points] *)
Definition remove_query_points (b : Beam) (x_coords : list Q)
  (remove_all : bool) : Beam * outcome (option exn) :=
  if remove_all then (set_query b [], Returned None)
  else remove_query_points_loop b x_coords.

End Indeterminatebeam.

(** ** Right angles

    What Python computes for [cos(radians(a))] and [sin(radians(a))] at
    the two angles the package's examples use, [0] and [90] degrees; the
    table serves to run the constructors at those angles and says
    nothing of any other angle. *)

Module RightAngles.

Definition cos_deg (angle : Q) : Q :=
  if Qeq_bool angle 0 then 1
  else if Qeq_bool angle 90
       then 6123233995736766 # 100000000000000000000000000000000
       else 0.

Definition sin_deg (angle : Q) : Q :=
  if Qeq_bool angle 90 then 1 else 0.

End RightAngles.

(** ** Scenarios *)

Module Scenario.
Import Indeterminatebeam.

(** [Beam(span)] with the default section of the class. *)
Definition default_beam (span : Q) : result Beam :=
  new_Beam span 200000 9050000 2300.

(** The beam of the simply supported example: span 5, a pin
    [Support(0, (1,1,0))] and a roller [Support(5, (0,1,0))]. *)
Definition on_pin_and_roller : result Beam :=
  b <- default_beam 5 ;;
  pin <- new_Support 1%nat 0 [1; 1; 0]%Z None None ;;
  roller <- new_Support 2%nat 5 [0; 1; 0]%Z None None ;;
  match add_supports b [pin; roller] with
  | (b', Returned _) => Ok b'
  | (_, Raised e) => Raise e
  end.

(** [PointLoad(-10, 2.5, 90)] *)
Definition midspan_load : result Load :=
  new_PointLoad RightAngles.cos_deg RightAngles.sin_deg 3%nat (-10) (5 # 2) 90.

(** The example with its load placed in [_loads]. *)
Definition simply_supported : result Beam :=
  b <- on_pin_and_roller ;;
  load <- midspan_load ;;
  Ok (set_loads b (_loads b ++ [load])).

(** Reactions of 5 at every transverse unknown and 0 elsewhere. *)
Definition five_each (s : symbol) : Q :=
  match fst s with
  | transverse => 5
  | _ => 0
  end.

(** Everything [analyse] stores on the beam. *)
Definition results (b : Beam)
  : list (Q * list Q) * expr * expr * expr * option expr * option expr :=
  (_reactions b, _normal_forces b, _shear_forces b, _bending_moments b,
   _deflection_equation b, _axial_deflection b).

(** Number of supports restrained in a channel. *)
Definition count_restrained (i : nat) (l : list Support) : nat :=
  length (filter (restrained i) l).

(** No two of the positions are equal. *)
Fixpoint distinct (l : list Q) : bool :=
  match l with
  | [] => true
  | h :: t => negb (contains Qeq_bool h t) && distinct t
  end.

(** [Beam(5)] as its constructor leaves it. *)
Definition beam_of_span_5 : Beam :=
  {| _x0 := 0; _x1 := 5;
     _loads := [];
     _distributed_forces_x := []; _distributed_forces_y := [];
     _normal_forces := []; _shear_forces := []; _bending_moments := [];
     _deflection_equation := None; _axial_deflection := None;
     _query := []; _supports := []; _reactions := [];
     _E := 200000; _I := 9050000; _A := 2300 |}.

(** The positions of the supports of a beam. *)
Definition positions (b : Beam) : list Q := map _position (_supports b).

(** [k < 0] for an optional stiffness. *)
Definition negative (k : option Q) : bool :=
  match k with
  | Some v => Qltb v 0
  | None => false
  end.

End Scenario.

(** ** Values of load functions *)

Module Evaluation.

(** The value at [t] of one term; a singularity function of negative
    order has no finite value to give and yields [None]. *)
Definition eval_term (t : Q) (tm : term) : option Q :=
  match snd tm with
  | XPow k => Some (fst tm * t ^ Z.of_nat k)
  | SingularityFunction a n =>
      match n with
      | Zneg _ => None
      | _ => Some (fst tm * macaulay a (Z.to_nat n) t)
      end
  end.

Fixpoint eval (e : expr) (t : Q) : option Q :=
  match e with
  | [] => Some 0
  | tm :: rest =>
      match eval_term t tm, eval rest t with
      | Some v, Some w => Some (v + w)
      | _, _ => None
      end
  end.

End Evaluation.

(** ** [Beam.check_determinancy] *)

Module Determinancy.
Import Indeterminatebeam.

(** numpy's [a + b] on two one-dimensional arrays: elementwise when the
    lengths agree, an array of one element being stretched to the other;
    anything else does not broadcast. *)
Definition np_add (a b : list Z) : result (list Z) :=
  if (length a =? length b)%nat
  then Ok (map (fun p => (fst p + snd p)%Z) (combine a b))
  else if (length a =? 1)%nat then Ok (map (fun v => (nth 0 a 0 + v)%Z) b)
  else if (length b =? 1)%nat then Ok (map (fun v => (v + nth 0 b 0)%Z) a)
  else Raise ValueError.

(** What the method returns: one of its two [ValueError] objects
    (returned, not raised) or the degree of indeterminacy, which it also
    stores in [self._determinancy]. *)
Inductive answer : Type :=
| No_reaction_forces
| Unstable
| Degree (d : Z).

Definition total (unknowns : list Z) : Z := fold_right Z.add 0%Z unknowns.

Definition check_determinancy (b : Beam) : result answer :=
  unknowns <-
    fold_left
      (fun acc support => u <- acc ;; np_add (_DOF support) u)
      (_supports b) (Ok [0; 0; 0]%Z) ;;
  let equations := 3%Z in
  let equations :=
    if (nth 0 unknowns 0 =? 0)%Z then (equations - 1)%Z else equations in
  let equations :=
    if (nth 1 unknowns 0 =? 0)%Z then (equations - 1)%Z else equations in
  let unknowns := total unknowns in
  if (unknowns =? 0)%Z then Ok No_reaction_forces
  else if (unknowns <? equations)%Z then Ok Unstable
  else Ok (Degree (unknowns - equations)).

(** [int(c)] for a boolean. *)
Definition flag (c : bool) : Z := if c then 1%Z else 0%Z.

(** Supports that came out of the constructor. *)
Definition built (s : Support) : Prop :=
  exists self coord fixed kx ky, new_Support self coord fixed kx ky = Ok s.

End Determinancy.

(** ** [Beam._get_query_value] and the functions that call it *)

Module Queries.
Import Indeterminatebeam.

(** The coordinates of a query: the tuple the public functions collect,
    or a bare number. *)
Inductive coordinates : Type :=
| Tuple (xs : list Q)
| Scalar (x : Q).

Inductive value : Type :=
| Values (vs : list Q)
| Value (v : Q).

(** [np.linspace(start, stop, num)] for [num >= 2]: equal steps from
    [start], the last point being [stop] itself. *)
Definition linspace (start stop : Q) (num : nat) : list Q :=
  let step := (stop - start) / inject_Z (Z.of_nat (num - 1)) in
  map (fun i => start + inject_Z (Z.of_nat i) * step) (seq 0 (num - 1))
  ++ [stop].

(** [min] and [max] of an array, and Python's [max] of two numbers. *)
Definition smaller (a b : Q) : Q := if Qltb b a then b else a.
Definition larger (a b : Q) : Q := if Qltb a b then b else a.

Definition minimum (l : list Q) : Q :=
  match l with
  | [] => 0
  | h :: t => fold_left smaller t h
  end.

Definition maximum (l : list Q) : Q :=
  match l with
  | [] => 0
  | h :: t => fold_left larger t h
  end.

Section Lambdify.

(** [lambdify(x, sym_func, "numpy")], the expression as a function of
    the coordinate; sympy's, from outside the repository. *)
Variable lambdify : expr -> Q -> Q.

(** The samples [y_vec] of a function over the beam. *)
Definition samples (b : Beam) (func : Q -> Q) : list Q :=
  map func (linspace (_x0 b) (_x1 b) 1000).

Definition _get_query_value (b : Beam) (x_coord : coordinates)
  (sym_func : expr) (return_max return_min return_absmax : bool) : value :=
  let func := lambdify sym_func in
  if negb (return_absmax || return_max || return_min) then
    match x_coord with
    | Tuple xs => Values (map (fun x_ => round (func x_) 3) xs)
    | Scalar x_ => Value (round (func x_) 3)
    end
  else
    let y_vec := samples b func in
    let min_ := minimum y_vec in
    let max_ := maximum y_vec in
    if return_max then Value (round max_ 3)
    else if return_min then Value (round min_ 3)
    else Value (round (larger (Qabs min_) max_) 3).

Definition get_bending_moment (b : Beam) (x_coord : list Q)
  (return_max return_min return_absmax : bool) : value :=
  _get_query_value b (Tuple x_coord) (_bending_moments b)
    return_max return_min return_absmax.

Definition get_shear_force (b : Beam) (x_coord : list Q)
  (return_max return_min return_absmax : bool) : value :=
  _get_query_value b (Tuple x_coord) (_shear_forces b)
    return_max return_min return_absmax.

Definition get_normal_force (b : Beam) (x_coord : list Q)
  (return_max return_min return_absmax : bool) : value :=
  _get_query_value b (Tuple x_coord) (_normal_forces b)
    return_max return_min return_absmax.

End Lambdify.

End Queries.

(** ** Lists of supports *)

Module Sessions.
Import Indeterminatebeam.

(** Every second element of a list, starting with the second. *)
Fixpoint every_other {A : Type} (l : list A) : list A :=
  match l with
  | _ :: b :: t => b :: every_other t
  | _ => []
  end.

(** No two of the supports are the same object. *)
Fixpoint separate (l : list Support) : bool :=
  match l with
  | [] => true
  | h :: t => negb (contains same_support h t) && separate t
  end.

End Sessions.

(** ** A straight angle

    What Python computes for [sin(radians(180))] and [cos(radians(180))]:
    the sine is not zero but a residue of the order of [1e-16]. *)

Module StraightAngle.

Definition cos_deg (angle : Q) : Q :=
  if Qeq_bool angle 180 then -1 else 0.

Definition sin_deg (angle : Q) : Q :=
  if Qeq_bool angle 180
  then 12246467991473532 # 100000000000000000000000000000000
  else 0.

End StraightAngle.

(** ** More beams *)

Module Examples.
Import Indeterminatebeam Scenario.

(** Span 5 on two rollers [Support(0, (0,1,0))], [Support(5, (0,1,0))]. *)
Definition on_two_rollers : result Beam :=
  b <- default_beam 5 ;;
  first <- new_Support 1%nat 0 [0; 1; 0]%Z None None ;;
  second <- new_Support 2%nat 5 [0; 1; 0]%Z None None ;;
  match add_supports b [first; second] with
  | (b', Returned _) => Ok b'
  | (_, Raised e) => Raise e
  end.

(** Span 6 on three supports, at 0, 3 and 6. *)
Definition on_three_supports : result Beam :=
  b <- default_beam 6 ;;
  s1 <- new_Support 1%nat 0 [1; 1; 0]%Z None None ;;
  s2 <- new_Support 2%nat 3 [0; 1; 0]%Z None None ;;
  s3 <- new_Support 3%nat 6 [0; 1; 0]%Z None None ;;
  match add_supports b [s1; s2; s3] with
  | (b', Returned _) => Ok b'
  | (_, Raised e) => Raise e
  end.

(** The two tests of [add_supports] on one support. *)
Definition refused (b : Beam) (s : Support) : bool :=
  Qltb (_position s) (_x0 b) || Qltb (_x1 b) (_position s)
  || contains Qeq_bool (_position s) (positions b).

(** What holds of a beam however it was obtained from a new one by
    adding and removing loads, supports and query points. *)
Definition sound (span : Q) (b : Beam) : Prop :=
  _x0 b = 0 /\ _x1 b = span /\
  _loads b = [] /\ _reactions b = [] /\
  distinct (positions b) = true /\
  (forall s, In s (_supports b) -> 0 <= _position s /\ _position s <= span) /\
  (forall x, In x (_query b) -> 0 <= x /\ x <= span).

End Examples.

(** ** [units.py]: conversion to SI units *)

From Stdlib Require String.

Module Units.
Import String.
Local Open Scope string_scope.

Definition mm : Q := 1 # 1000.
Definition cm : Q := 1 # 100.
Definition m : Q := 1.

Definition N : Q := 1.
Definition kN : Q := 1000.

(** A dictionary with string keys, in the order it is written. *)
Definition table (V : Type) : Type := list (string * V).

Fixpoint lookup {V : Type} (k : string) (d : table V) : option V :=
  match d with
  | nil => None
  | (k', v) :: t => if String.eqb k' k then Some v else lookup k t
  end.

Definition keys {V : Type} (d : table V) : list string := map fst d.

Definition METRIC_UNITS : table (table Q) :=
  [ ("length", [("mm", mm); ("cm", cm); ("m", m)]);
    ("force", [("N", N); ("kN", kN)]);
    ("moment", [("N.mm", N * mm); ("kN.mm", kN * mm); ("N.m", N * m);
                ("kN.m", kN * m)]);
    ("distributed", [("N/mm", N / mm); ("kN/mm", kN / mm); ("N/m", N / m);
                     ("kN/m", kN / m)]);
    ("stiffness", [("N/mm", N / mm); ("kN/mm", kN / mm); ("N/m", N / m);
                   ("kN/m", kN / m)]);
    ("A", [("mm2", mm ^ 2); ("cm2", cm ^ 2); ("m2", m ^ 2)]);
    ("E", [("Pa", N / (m ^ 2)); ("kPa", kN / (m ^ 2)); ("MPa", N / (mm ^ 2))]);
    ("I", [("mm4", mm ^ 4); ("cm4", cm ^ 4); ("m4", m ^ 4)]);
    ("deflection", [("mm", mm); ("cm", cm); ("m", m)]) ].

Definition inch : Q := 254 # 10000.
Definition ft : Q := 3048 # 10000.
Definition lbf : Q := 44482216 # 10000000.
Definition kip : Q := 44482216 # 10000.

Definition IMPERIAL_UNITS : table (table Q) :=
  [ ("length", [("in", inch); ("ft", ft)]);
    ("force", [("lbf", lbf); ("kip", kip)]);
    ("moment", [("lbf.ft", lbf * ft); ("kip.ft", kip * ft);
                ("lbf.in", lbf * inch); ("kip.in", kip * inch)]);
    ("distributed", [("kip/ft", kip / ft); ("kip/in", kip / inch);
                     ("lbf/ft", lbf / ft); ("lbf/in", lbf / inch)]);
    ("stiffness", [("kip/ft", kip / ft); ("kip/in", kip / inch);
                   ("lbf/ft", lbf / ft); ("lbf/in", lbf / inch)]);
    ("A", [("in2", inch ^ 2); ("ft2", ft ^ 2)]);
    ("E", [("kip/in2", kip / (inch ^ 2)); ("kip/ft2", kip / (ft ^ 2));
           ("lbf/in2", lbf / (inch ^ 2)); ("lbf/ft2", lbf / (ft ^ 2))]);
    ("I", [("in4", inch ^ 4); ("ft4", ft ^ 4)]);
    ("deflection", [("in", inch); ("ft", ft)]) ].

(** The factor of a unit of a quantity in one of the two tables. *)
Definition factor (units : table (table Q)) (quantity unit : string)
  : option Q :=
  match lookup quantity units with
  | Some d => lookup unit d
  | None => None
  end.

End Units.

(** ** The beam with any object in its load list

    [add_loads] tests a load only when it is an instance of one of the
    module's load classes; any other object (a load of [loading.py], a
    tuple, ...) goes into [_loads] untested.  Here the load list holds
    either kind, and [analyse] is part of the calls. *)

Module Openbeam.
Import Indeterminatebeam.

Section Objects.

(** The objects that are not instances of the module's load classes. *)
Context {foreign : Type}.

Inductive object : Type :=
| Instance (load : Load)
| Foreign (f : foreign).

(** Whether Python finds a foreign object equal to another object, by
    identity or by the [__eq__] the foreign object brings; and whether
    [analyse] can read [_x] and [_y] of a foreign object and integrate
    [_y * x]. *)
Variable foreign_equal : foreign -> object -> bool.
Variable assembles : foreign -> bool.

(** [item == x] as [in] and [list.remove] evaluate it: instances of the
    module's classes define no [__eq__] and are equal to themselves
    only; against a foreign object the foreign object decides. *)
Definition matches (item x : object) : bool :=
  match item, x with
  | Instance a, Instance b => same_load a b
  | Foreign f, _ => foreign_equal f x
  | Instance _, Foreign f => foreign_equal f item
  end.

Record Beam : Type := mkBeam {
  _x0 : Q;
  _x1 : Q;
  _loads : list object;
  _distributed_forces_x : list (Load * list expr);
  _distributed_forces_y : list (Load * list expr);
  _normal_forces : expr;
  _shear_forces : expr;
  _bending_moments : expr;
  _deflection_equation : option expr;
  _axial_deflection : option expr;
  _query : list Q;
  _supports : list Support;
  _reactions : list (Q * list Q);
  _E : Q;
  _I : Q;
  _A : Q
}.

Definition new_Beam (span E I A : Q) : result Beam :=
  assert_strictly_positive_number span ;;;
  assert_strictly_positive_number E ;;;
  assert_strictly_positive_number I ;;;
  assert_strictly_positive_number A ;;;
  Ok {| _x0 := 0; _x1 := span;
        _loads := [];
        _distributed_forces_x := []; _distributed_forces_y := [];
        _normal_forces := []; _shear_forces := []; _bending_moments := [];
        _deflection_equation := None; _axial_deflection := None;
        _query := []; _supports := []; _reactions := [];
        _E := E; _I := I; _A := A |}.

Definition set_loads (b : Beam) (l : list object) : Beam :=
  {| _x0 := _x0 b; _x1 := _x1 b; _loads := l;
     _distributed_forces_x := _distributed_forces_x b;
     _distributed_forces_y := _distributed_forces_y b;
     _normal_forces := _normal_forces b; _shear_forces := _shear_forces b;
     _bending_moments := _bending_moments b;
     _deflection_equation := _deflection_equation b;
     _axial_deflection := _axial_deflection b;
     _query := _query b; _supports := _supports b;
     _reactions := _reactions b; _E := _E b; _I := _I b; _A := _A b |}.

Definition set_supports (b : Beam) (l : list Support) : Beam :=
  {| _x0 := _x0 b; _x1 := _x1 b; _loads := _loads b;
     _distributed_forces_x := _distributed_forces_x b;
     _distributed_forces_y := _distributed_forces_y b;
     _normal_forces := _normal_forces b; _shear_forces := _shear_forces b;
     _bending_moments := _bending_moments b;
     _deflection_equation := _deflection_equation b;
     _axial_deflection := _axial_deflection b;
     _query := _query b; _supports := l;
     _reactions := _reactions b; _E := _E b; _I := _I b; _A := _A b |}.

Definition set_query (b : Beam) (l : list Q) : Beam :=
  {| _x0 := _x0 b; _x1 := _x1 b; _loads := _loads b;
     _distributed_forces_x := _distributed_forces_x b;
     _distributed_forces_y := _distributed_forces_y b;
     _normal_forces := _normal_forces b; _shear_forces := _shear_forces b;
     _bending_moments := _bending_moments b;
     _deflection_equation := _deflection_equation b;
     _axial_deflection := _axial_deflection b;
     _query := l; _supports := _supports b;
     _reactions := _reactions b; _E := _E b; _I := _I b; _A := _A b |}.

(** The beam without its load list, as the methods that never look at
    the loads see it. *)
Definition forget (b : Beam) : Indeterminatebeam.Beam :=
  {| Indeterminatebeam._x0 := _x0 b;
     Indeterminatebeam._x1 := _x1 b;
     Indeterminatebeam._loads := [];
     Indeterminatebeam._distributed_forces_x := _distributed_forces_x b;
     Indeterminatebeam._distributed_forces_y := _distributed_forces_y b;
     Indeterminatebeam._normal_forces := _normal_forces b;
     Indeterminatebeam._shear_forces := _shear_forces b;
     Indeterminatebeam._bending_moments := _bending_moments b;
     Indeterminatebeam._deflection_equation := _deflection_equation b;
     Indeterminatebeam._axial_deflection := _axial_deflection b;
     Indeterminatebeam._query := _query b;
     Indeterminatebeam._supports := _supports b;
     Indeterminatebeam._reactions := _reactions b;
     Indeterminatebeam._E := _E b;
     Indeterminatebeam._I := _I b;
     Indeterminatebeam._A := _A b |}.

(** [Beam.add_loads] *)
Fixpoint add_loads (b : Beam) (loads : list object) : Beam * outcome unit :=
  match loads with
  | [] => (b, Returned tt)
  | load :: rest =>
      match load with
      | Instance l =>
          if is_distributed (load_class l) then
            match unpack_pair l with
            | Raise e => (b, Raised e)
            | Ok (left_, right_) =>
                if Qltb left_ (_x0 b) || Qltb (_x1 b) right_
                then (b, Raised ValueError)
                else add_loads (set_loads b (_loads b ++ [load])) rest
            end
          else if is_point (load_class l) then
            match getitem l 1 with
            | Raise e => (b, Raised e)
            | Ok coordinate =>
                if Qltb coordinate (_x0 b) || Qltb (_x1 b) coordinate
                then (b, Raised ValueError)
                else add_loads (set_loads b (_loads b ++ [load])) rest
            end
          else add_loads (set_loads b (_loads b ++ [load])) rest
      | Foreign _ => add_loads (set_loads b (_loads b ++ [load])) rest
      end
  end.

(** [Beam.remove_loads] *)
Definition remove_loads (b : Beam) (loads : list object) (remove_all : bool)
  : Beam * outcome unit :=
  if remove_all then (set_loads b [], Returned tt)
  else
    (fold_left
       (fun (acc : Beam) (load : object) =>
          if contains matches load (_loads acc)
          then set_loads acc (remove_first matches load (_loads acc))
          else acc)
       loads b,
     Returned tt).

(** [Beam.add_supports] *)
Fixpoint add_supports (b : Beam) (supports : list Support)
  : Beam * outcome unit :=
  match supports with
  | [] => (b, Returned tt)
  | support :: rest =>
      if Qltb (_position support) (_x0 b) || Qltb (_x1 b) (_position support)
      then (b, Raised ValueError)
      else
        match _supports b with
        | [] => add_supports (set_supports b (_supports b ++ [support])) rest
        | _ :: _ =>
            if negb (contains Qeq_bool (_position support)
                       (map _position (_supports b)))
            then add_supports (set_supports b (_supports b ++ [support])) rest
            else (b, Raised ValueError)
        end
  end.

(** [Beam.remove_supports], with the loop of the other model. *)
Definition remove_supports (b : Beam) (supports : list Support)
  (remove_all : bool) : Beam * outcome unit :=
  if remove_all then (set_supports b [], Returned tt)
  else
    (set_supports b
       (remove_supports_loop (length (_supports b)) 0 (_supports b) supports),
     Returned tt).

(** [Beam.add_query_points] *)
Fixpoint add_query_points (b : Beam) (x_coords : list Q)
  : Beam * outcome (option exn) :=
  match x_coords with
  | [] => (b, Returned None)
  | x_coord :: rest =>
      if Qle_bool (_x0 b) x_coord && Qle_bool x_coord (_x1 b)
      then add_query_points (set_query b (_query b ++ [x_coord])) rest
      else (b, Returned (Some ValueError))
  end.

Fixpoint remove_query_points_loop (b : Beam) (x_coords : list Q)
  : Beam * outcome (option exn) :=
  match x_coords with
  | [] => (b, Returned None)
  | x_coord :: rest =>
      if contains Qeq_bool x_coord (_query b)
      then remove_query_points_loop
             (set_query b (remove_first Qeq_bool x_coord (_query b))) rest
      else (b, Returned (Some ValueError))
  end.

(** [Beam.remove_query_points] *)
Definition remove_query_points (b : Beam) (x_coords : list Q)
  (remove_all : bool) : Beam * outcome (option exn) :=
  if remove_all then (set_query b [], Returned None)
  else remove_query_points_loop b x_coords.

(** How a call of [analyse] ends.  The restraint checks raise
    [ValueError]; reading [_x] and [_y] of the loads and integrating
    [_y * x] for the equations of external equilibrium may raise on a
    foreign object; and the statement after them calls
    [self._point_loads_x()], a method that the class defines only in
    commented-out code, which raises [AttributeError].  Everything from
    there on, the assignment of [self._reactions] and of the result
    functions included, is never reached; before it, only local
    variables are assigned. *)
Inductive analysis : Type :=
| Analysed
| Refused (e : exn)
| Load_not_readable
| Method_missing.

Definition readable (o : object) : bool :=
  match o with
  | Instance _ => true
  | Foreign f => assembles f
  end.

(** [Beam.analyse] *)
Definition analyse (b : Beam) : Beam * analysis :=
  match analyse_preconditions (forget b) with
  | Raise e => (b, Refused e)
  | Ok _ =>
      if forallb readable (_loads b) then (b, Method_missing)
      else (b, Load_not_readable)
  end.

(** [Beam.get_reaction], for a direction that is absent or one of
    ['x'], ['y'], ['m']. *)
Definition get_reaction (b : Beam) (x_coord : Q) (direction : option channel)
  : result reaction :=
  assert_positive_number x_coord ;;;
  match dict_get x_coord (_reactions b) with
  | None => Ok NoReaction
  | Some r =>
      match direction with
      | Some d => Ok (OneReaction (nth (direction_index d) r 0))
      | None => Ok (AllReactions r)
      end
  end.

(** *** Sequences of calls *)

Inductive call : Type :=
| Add_loads (loads : list object)
| Remove_loads (loads : list object) (remove_all : bool)
| Add_supports (supports : list Support)
| Remove_supports (supports : list Support) (remove_all : bool)
| Add_query_points (x_coords : list Q)
| Remove_query_points (x_coords : list Q) (remove_all : bool)
| Analyse.

(** The beam after one call, whether the call returned or raised. *)
Definition perform (b : Beam) (c : call) : Beam :=
  match c with
  | Add_loads loads => fst (add_loads b loads)
  | Remove_loads loads remove_all => fst (remove_loads b loads remove_all)
  | Add_supports supports => fst (add_supports b supports)
  | Remove_supports supports remove_all =>
      fst (remove_supports b supports remove_all)
  | Add_query_points x_coords => fst (add_query_points b x_coords)
  | Remove_query_points x_coords remove_all =>
      fst (remove_query_points b x_coords remove_all)
  | Analyse => fst (analyse b)
  end.

Definition session (b : Beam) (calls : list call) : Beam :=
  fold_left perform calls b.

(** Whether an object of the load list is foreign. *)
Definition is_foreign (o : object) : bool :=
  match o with
  | Instance _ => false
  | Foreign _ => true
  end.

End Objects.

Arguments object foreign : clear implicits.
Arguments Beam foreign : clear implicits.
Arguments call foreign : clear implicits.

(** Objects compared by identity alone, such as the loads of
    [loading.py], which [analyse] cannot read [_x] of. *)
Definition by_identity (f : nat) (x : object nat) : bool :=
  match x with
  | Instance _ => false
  | Foreign g => (f =? g)%nat
  end.

Definition unreadable (f : nat) : bool := false.

(** [Beam(5)] as its constructor leaves it. *)
Definition beam_of_span_5 : Beam nat :=
  {| _x0 := 0; _x1 := 5;
     _loads := [];
     _distributed_forces_x := []; _distributed_forces_y := [];
     _normal_forces := []; _shear_forces := []; _bending_moments := [];
     _deflection_equation := None; _axial_deflection := None;
     _query := []; _supports := []; _reactions := [];
     _E := 200000; _I := 9050000; _A := 2300 |}.

(** [Support(0, (1,1,0))] and [Support(5, (0,1,0))] as the constructor
    builds them. *)
Definition pin : Support :=
  {| support_addr := 1%nat; _stiffness := [oo; oo; Stiff 0];
     _DOF := [1; 1; 0]%Z; _fixed := [1; 1; 0]%Z;
     _position := 0; _id := None |}.

Definition roller : Support :=
  {| support_addr := 2%nat; _stiffness := [Stiff 0; oo; Stiff 0];
     _DOF := [0; 1; 0]%Z; _fixed := [0; 1; 0]%Z;
     _position := 5; _id := None |}.

(** Supports and a foreign load are attached, the beam is analysed, a
    support is removed and query points are added. *)
Definition a_visit : list (call nat) :=
  [ Add_supports [pin; roller]; Add_loads [Foreign 7%nat]; Analyse;
    Remove_supports [roller] false; Add_query_points [1; 7] ].

End Openbeam.

(** * Properties *)

(** ** Validation helpers *)

Lemma Qltb_false_iff (a b : Q) : Qltb a b = false <-> b <= a.
Proof.
  unfold Qltb. rewrite negb_false_iff. apply Qle_bool_iff.
Qed.

Lemma Qltb_true_iff (a b : Q) : Qltb a b = true <-> a < b.
Proof.
  unfold Qltb. rewrite negb_true_iff. split.
  - intros H. apply Qnot_le_lt. intros Hle.
    apply Qle_bool_iff in Hle. congruence.
  - intros H. destruct (Qle_bool b a) eqn:E; [|reflexivity].
    apply Qle_bool_iff in E. exfalso. apply (Qlt_not_le _ _ H E).
Qed.

Lemma Qle_bool_false_iff (a b : Q) : Qle_bool a b = false <-> b < a.
Proof.
  rewrite <- Qltb_true_iff. unfold Qltb. now rewrite negb_true_iff.
Qed.

Lemma assert_positive_number_ok (n : Q) :
  0 <= n -> assert_positive_number n = Ok tt.
Proof.
  intros H. unfold assert_positive_number.
  now rewrite (proj2 (Qltb_false_iff n 0) H).
Qed.

Lemma assert_positive_number_raises (n : Q) :
  n < 0 -> assert_positive_number n = Raise ValueError.
Proof.
  intros H. unfold assert_positive_number.
  now rewrite (proj2 (Qltb_true_iff n 0) H).
Qed.

Lemma assert_strictly_positive_number_ok (n : Q) :
  0 < n -> assert_strictly_positive_number n = Ok tt.
Proof.
  intros H. unfold assert_strictly_positive_number.
  now rewrite (proj2 (Qle_bool_false_iff n 0) H).
Qed.

(** ** [loading.py] *)

Module LoadingFacts.
Import Loading.

Section Projection.

Variables cos_deg sin_deg : Q -> Q.

Lemma span_accepted (a b : Q) (k : result Load) :
  0 <= a -> a < b ->
  (assert_positive_number (fst (a, b)) ;;;
   assert_strictly_positive_number (snd (a, b) - fst (a, b)) ;;; k) = k.
Proof.
  intros Ha Hab. cbn [fst snd].
  rewrite assert_positive_number_ok by assumption.
  rewrite assert_strictly_positive_number_ok by lra.
  reflexivity.
Qed.

Lemma triangular_component_equal_ends (q : Q) (span : Q * Q) :
  triangular_component (q, q) span = zero.
Proof.
  unfold triangular_component. cbn [fst snd].
  now rewrite (proj2 (Qeq_bool_iff q q) (Qeq_refl q)).
Qed.

(** C4: a trapezoidal load whose two end values are equal is the uniform
    load of that value: over a span [(a, b)] with [0 <= a < b] both
    constructors succeed, the four load functions of the two objects
    are the same expressions, their moments about zero are equal, and
    the trapezoid has no ramp term. *)
Theorem trapezoid_with_equal_ends_is_udl (q a b angle : Q) :
  0 <= a -> a < b ->
  exists u t : Load,
    UDL cos_deg sin_deg q (a, b) angle = Ok u /\
    TrapezoidalLoad cos_deg sin_deg (q, q) (a, b) angle = Ok t /\
    _x0 t = _x0 u /\ _y0 t = _y0 u /\ _x1 t = _x1 u /\ _y1 t = _y1 u /\
    _m0 t == _m0 u /\
    expr_of t = expr_of u /\
    triangular_component (q, q) (a, b) = zero.
Proof.
  intros Ha Hab.
  unfold UDL, TrapezoidalLoad.
  rewrite !span_accepted by assumption.
  rewrite triangular_component_equal_ends.
  eexists. eexists.
  split; [reflexivity|]. split; [reflexivity|].
  cbn [fst snd add zero app].
  unfold with_functions, _add_load_functions.
  cbn [_x0 _y0 _x1 _y1 _m0 attrs expr_of].
  repeat split; try reflexivity.
  field.
Qed.

(** The uniform load computes its moment over its own span. *)
Lemma udl_moment_over_span (q a b angle : Q) :
  0 <= a -> a < b -> significant (sin_deg angle) 8 = true ->
  exists u : Load,
    UDL cos_deg sin_deg q (a, b) angle = Ok u /\
    _m0 u == moment_integral (_y0 u) a b.
Proof.
  intros Ha Hab Hsig. unfold UDL.
  rewrite span_accepted by assumption.
  eexists. split; [reflexivity|].
  unfold with_functions, _add_load_functions. rewrite Hsig.
  cbn [_m0 _y0 fst snd step_over sub scale map app].
  unfold moment_integral. cbn [fold_right fst snd moment_primitive].
  unfold macaulay.
  rewrite (proj2 (Qle_bool_iff a b)) by lra.
  rewrite (proj2 (Qle_bool_iff a a)) by lra.
  rewrite (proj2 (Qle_bool_iff b b)) by lra.
  rewrite (proj2 (Qle_bool_false_iff b a)) by lra.
  cbn [Z.of_nat Pos.of_succ_nat Pos.succ].
  field.
Qed.

(** So does the trapezoidal load. *)
Lemma trapezoid_moment_over_span (qa qb a b angle : Q) :
  0 <= a -> a < b -> significant (sin_deg angle) 8 = true ->
  exists t : Load,
    TrapezoidalLoad cos_deg sin_deg (qa, qb) (a, b) angle = Ok t /\
    _m0 t == moment_integral (_y0 t) a b.
Proof.
  intros Ha Hab Hsig. unfold TrapezoidalLoad.
  rewrite span_accepted by assumption.
  eexists. split; [reflexivity|].
  unfold with_functions, _add_load_functions. rewrite Hsig.
  unfold triangular_component. cbn [fst snd].
  destruct (Qeq_bool qa qb) eqn:E; cbn [negb];
    cbn [_m0 _y0 fst snd step_over sub scale map app add sum fold_right zero];
    unfold moment_integral; cbn [fold_right fst snd moment_primitive];
    unfold macaulay;
    rewrite (proj2 (Qle_bool_iff a b)) by lra;
    rewrite (proj2 (Qle_bool_iff a a)) by lra;
    rewrite (proj2 (Qle_bool_iff b b)) by lra;
    rewrite (proj2 (Qle_bool_false_iff b a)) by lra;
    change (Z.of_nat (Pos.to_nat 1 + 2)) with 3%Z;
    change (Z.of_nat (Pos.to_nat 1 + 1)) with 2%Z;
    change (Z.of_nat 2) with 2%Z; change (Z.of_nat 1) with 1%Z;
    change (inject_Z 3) with 3; change (inject_Z 2) with 2.
  - apply Qeq_bool_iff in E. rewrite <- E. field.
  - field. lra.
Qed.

(** C5: the moment about zero of a distributed load is integrated from
    the origin, not from the start of its span: for the constant
    intensity 1 over [(1, 2)] at 90 degrees the constructor stores 2,
    while the integral of [w_y(x) * x] over the span is 3/2. *)
Theorem distributed_load_moment_from_origin :
  sin_deg 90 = 1 ->
  exists d : Load,
    DistributedLoad cos_deg sin_deg [(1, XPow 0)] (1, 2) 90 = Ok d /\
    _y0 d = [(1 * 1, XPow 0)] /\
    _m0 d == 2 /\
    moment_integral (_y0 d) 0 2 == 2 /\
    moment_integral (_y0 d) 1 2 == 3 # 2.
Proof.
  intros Hsin.
  unfold DistributedLoad.
  rewrite span_accepted by lra.
  unfold _add_load_functions. rewrite Hsin.
  replace (significant 1 8) with true by (vm_compute; reflexivity).
  eexists. split; [reflexivity|].
  unfold with_functions. cbn [_y0 _m0 scale map fst snd].
  repeat split; vm_compute; reflexivity.
Qed.

End Projection.

Lemma trapezoid_with_equal_ends_is_udl_witness :
  0 <= 1 /\ 1 < 4 /\
  exists u t : Load,
    UDL RightAngles.cos_deg RightAngles.sin_deg 2 (1, 4) 90 = Ok u /\
    TrapezoidalLoad RightAngles.cos_deg RightAngles.sin_deg (2, 2) (1, 4) 90
      = Ok t /\
    _x0 t = _x0 u /\ _y0 t = _y0 u /\ _x1 t = _x1 u /\ _y1 t = _y1 u /\
    _m0 t == _m0 u /\
    expr_of t = expr_of u /\
    triangular_component (2, 2) (1, 4) = zero.
Proof.
  assert (H0 : 0 <= 1) by lra.
  assert (H1 : 1 < 4) by lra.
  split; [exact H0|]. split; [exact H1|].
  exact (trapezoid_with_equal_ends_is_udl
           RightAngles.cos_deg RightAngles.sin_deg 2 1 4 90 H0 H1).
Defined.

Lemma distributed_load_moment_from_origin_witness :
  RightAngles.sin_deg 90 = 1 /\
  exists d : Load,
    DistributedLoad RightAngles.cos_deg RightAngles.sin_deg
      [(1, XPow 0)] (1, 2) 90 = Ok d /\
    _y0 d = [(1 * 1, XPow 0)] /\
    _m0 d == 2 /\
    moment_integral (_y0 d) 0 2 == 2 /\
    moment_integral (_y0 d) 1 2 == 3 # 2.
Proof.
  split; [reflexivity|].
  apply (distributed_load_moment_from_origin
           RightAngles.cos_deg RightAngles.sin_deg).
  reflexivity.
Defined.

End LoadingFacts.

(** ** [indeterminatebeam.py] *)

Module BeamFacts.
Import Indeterminatebeam Scenario.

(** *** Field bookkeeping *)

Lemma results_set_loads b l : results (set_loads b l) = results b.
Proof. reflexivity. Qed.

Lemma results_set_supports b l : results (set_supports b l) = results b.
Proof. reflexivity. Qed.

Lemma results_set_query b l : results (set_query b l) = results b.
Proof. reflexivity. Qed.

Lemma set_query_same b : set_query b (_query b) = b.
Proof. now destruct b. Qed.

Lemma set_query_twice b l l' : set_query (set_query b l) l' = set_query b l'.
Proof. reflexivity. Qed.

(** *** Loads *)

(** Whatever its class, the first load stops [add_loads]. *)
Lemma add_loads_cons (b : Beam) (load : Load) (rest : list Load) :
  add_loads b (load :: rest) = (b, Raised TypeError).
Proof.
  cbn [add_loads]. unfold unpack_pair, getitem.
  destruct (load_class load); reflexivity.
Qed.

(** C7: [add_loads] raises [TypeError] on the first load it is given,
    wherever that load lies, and appends nothing: the placement test
    reads the load through unpacking and subscripting, which no load
    class supports.  So a load within the span is not attached. *)
Theorem add_loads_raises_on_any_load (b : Beam) (load : Load)
  (rest : list Load) :
  add_loads b (load :: rest) = (b, Raised TypeError) /\
  _loads (fst (add_loads b (load :: rest))) = _loads b.
Proof.
  rewrite add_loads_cons. split; reflexivity.
Qed.

Lemma add_loads_results b loads :
  results (fst (add_loads b loads)) = results b.
Proof.
  destruct loads as [|load rest]; [reflexivity|].
  now rewrite add_loads_cons.
Qed.

Lemma remove_loads_results b loads remove_all :
  results (fst (remove_loads b loads remove_all)) = results b.
Proof.
  unfold remove_loads. destruct remove_all; cbn [fst]; [reflexivity|].
  revert b. induction loads as [|load rest IH]; intros b; cbn [fold_left].
  - reflexivity.
  - destruct (contains same_load load (_loads b)); rewrite IH; reflexivity.
Qed.

(** *** Supports *)

Lemma add_supports_results b supports :
  results (fst (add_supports b supports)) = results b.
Proof.
  revert b. induction supports as [|s rest IH]; intros b; cbn [add_supports].
  - reflexivity.
  - destruct (Qltb (_position s) (_x0 b) || Qltb (_x1 b) (_position s));
      [reflexivity|].
    destruct (_supports b) as [|s0 l0] eqn:E.
    + rewrite IH. reflexivity.
    + destruct (negb (contains Qeq_bool (_position s)
                        (map _position (s0 :: l0))));
        [rewrite IH|]; reflexivity.
Qed.

Lemma remove_supports_results b supports remove_all :
  results (fst (remove_supports b supports remove_all)) = results b.
Proof.
  unfold remove_supports. destruct remove_all; reflexivity.
Qed.

(** Adding or removing loads or supports leaves the reaction map and
    the result functions exactly as they were, and so what
    [get_reaction] answers: none of the four methods writes them. *)
Lemma mutation_keeps_results (b : Beam) (loads : list Load)
  (supports : list Support) (remove_all : bool) (x_coord : Q)
  (direction : option channel) :
  let after :=
    [ fst (add_loads b loads); fst (remove_loads b loads remove_all);
      fst (add_supports b supports);
      fst (remove_supports b supports remove_all) ] in
  Forall (fun b' => results b' = results b /\
                    get_reaction b' x_coord direction
                    = get_reaction b x_coord direction) after.
Proof.
  assert (Hget : forall b', results b' = results b ->
            get_reaction b' x_coord direction
            = get_reaction b x_coord direction).
  { intros b' H. unfold get_reaction.
    assert (Hr : _reactions b' = _reactions b).
    { unfold results in H. congruence. }
    now rewrite Hr. }
  cbv zeta.
  repeat constructor;
    auto using add_loads_results, remove_loads_results,
      add_supports_results, remove_supports_results.
Qed.

Lemma set_loads_same b : set_loads b (_loads b) = b.
Proof. now destruct b. Qed.

Lemma set_supports_same b : set_supports b (_supports b) = b.
Proof. now destruct b. Qed.

(** Removing loads none of which is on the beam changes nothing and
    raises nothing. *)
Lemma remove_loads_absent (b : Beam) (loads : list Load) :
  (forall load, In load loads -> contains same_load load (_loads b) = false) ->
  remove_loads b loads false = (b, Returned tt).
Proof.
  intros H. unfold remove_loads. f_equal.
  induction loads as [|load rest IH]; cbn [fold_left]; [reflexivity|].
  rewrite (H load) by now left.
  apply IH. intros l Hl. apply H. now right.
Qed.

Lemma remove_supports_loop_absent (fuel i : nat)
  (current supports : list Support) :
  (forall s, In s current -> contains same_support s supports = false) ->
  remove_supports_loop fuel i current supports = current.
Proof.
  intros H. revert i. induction fuel as [|fuel IH]; intros i;
    cbn [remove_supports_loop]; [reflexivity|].
  destruct (nth_error current i) as [s|] eqn:E; [|reflexivity].
  rewrite (H s) by (eapply nth_error_In; exact E).
  apply IH.
Qed.

(** The same for supports. *)
Lemma remove_supports_absent (b : Beam) (supports : list Support) :
  (forall s, In s (_supports b) ->
             contains same_support s supports = false) ->
  remove_supports b supports false = (b, Returned tt).
Proof.
  intros H. unfold remove_supports.
  rewrite remove_supports_loop_absent by exact H.
  now rewrite set_supports_same.
Qed.

(** C8: removal compares objects, not contents.  A support built with
    the arguments of the attached pin, and a load built with the
    arguments of the attached load, remove nothing. *)
Theorem removal_is_by_identity :
  exists (b : Beam) (pin twin : Support) (load twin_load : Load),
    simply_supported = Ok b /\
    nth_error (_supports b) 0 = Some pin /\
    new_Support 7%nat 0 [1; 1; 0]%Z None None = Ok twin /\
    (_position twin, _stiffness twin, _DOF twin, _fixed twin, _id twin)
    = (_position pin, _stiffness pin, _DOF pin, _fixed pin, _id pin) /\
    _supports (fst (remove_supports b [twin] false)) = _supports b /\
    nth_error (_loads b) 0 = Some load /\
    new_PointLoad RightAngles.cos_deg RightAngles.sin_deg 8%nat (-10) (5 # 2) 90
    = Ok twin_load /\
    (load_class twin_load, _x twin_load, _y twin_load)
    = (load_class load, _x load, _y load) /\
    _loads (fst (remove_loads b [twin_load] false)) = _loads b.
Proof.
  do 5 eexists.
  split; [vm_compute; reflexivity|].
  split; [reflexivity|].
  split; [vm_compute; reflexivity|].
  split; [reflexivity|].
  split; [reflexivity|].
  split; [reflexivity|].
  split; [vm_compute; reflexivity|].
  split; [reflexivity|].
  reflexivity.
Qed.

(** Removing the two attached supports themselves leaves the second on
    the beam: the loop walks the list it is shortening. *)
Lemma remove_supports_skips_after_removal :
  exists (b : Beam) (pin roller : Support),
    on_pin_and_roller = Ok b /\
    _supports b = [pin; roller] /\
    _supports (fst (remove_supports b [pin; roller] false)) = [roller].
Proof.
  do 3 eexists. split; [vm_compute; reflexivity|].
  split; reflexivity.
Qed.

(** C9 (as stated, refuted): a stiffness of zero is accepted; the
    support is built and keeps the rigid axial channel of its tuple. *)
Lemma zero_stiffness_is_accepted :
  exists s : Support,
    new_Support 1%nat 0 [1; 1; 1]%Z (Some 0) None = Ok s /\
    _stiffness s = [oo; oo; oo].
Proof.
  eexists. split; vm_compute; reflexivity.
Qed.

Lemma zero_is_not_below_zero (v : Q) :
  Qeq_bool v 0 = true -> Qltb v 0 = false.
Proof.
  intros H. apply Qeq_bool_iff in H. apply Qltb_false_iff.
  rewrite H. apply Qle_refl.
Qed.

Lemma validate_if_given_raises (k : option Q) :
  raised (validate_if_given k) = negative k.
Proof.
  destruct k as [v|]; [|reflexivity].
  unfold validate_if_given, given, negative, assert_positive_number.
  destruct (Qeq_bool v 0) eqn:E; cbn [negb].
  - now rewrite zero_is_not_below_zero.
  - destruct (Qltb v 0); reflexivity.
Qed.

(** C9 (as amended): constructing a support fails exactly when the
    coordinate is negative, [kx] or [ky] is a negative number, an entry
    of the tuple is neither 0 nor 1, or the tuple has not three entries;
    a [kx] or [ky] of zero is not rejected and has the effect of an
    absent one. *)
Theorem support_validation (self : address) (coord : Q) (fixed : list Z)
  (kx ky : option Q) :
  raised (new_Support self coord fixed kx ky)
  = (Qltb coord 0 || negative kx || negative ky
     || negb (all_boolean fixed) || negb (length fixed =? 3)%nat)
  /\ new_Support self coord fixed (Some 0) ky
     = new_Support self coord fixed None ky
  /\ new_Support self coord fixed kx (Some 0)
     = new_Support self coord fixed kx None.
Proof.
  split; [|split; reflexivity].
  unfold new_Support.
  unfold assert_positive_number at 1.
  destruct (Qltb coord 0); [reflexivity|]. cbn [bind orb].
  rewrite <- (validate_if_given_raises kx).
  destruct (validate_if_given kx); [|reflexivity]. cbn [bind raised orb].
  rewrite <- (validate_if_given_raises ky).
  destruct (validate_if_given ky); [|reflexivity]. cbn [bind raised orb].
  destruct (negb (all_boolean fixed)); [reflexivity|].
  destruct (negb (length fixed =? 3)%nat); reflexivity.
Qed.

(** *** Query points *)

Lemma in_range_iff (b : Beam) (x : Q) :
  Qle_bool (_x0 b) x && Qle_bool x (_x1 b) = true
  <-> _x0 b <= x /\ x <= _x1 b.
Proof.
  rewrite andb_true_iff, !Qle_bool_iff. reflexivity.
Qed.

Lemma add_query_points_stops (b : Beam) (pre post : list Q) (bad : Q) :
  (forall x, In x pre -> _x0 b <= x /\ x <= _x1 b) ->
  ~ (_x0 b <= bad /\ bad <= _x1 b) ->
  add_query_points b (pre ++ bad :: post)
  = (set_query b (_query b ++ pre), Returned (Some ValueError)).
Proof.
  revert b. induction pre as [|x pre IH]; intros b Hpre Hbad.
  - cbn [app add_query_points].
    destruct (Qle_bool (_x0 b) bad && Qle_bool bad (_x1 b)) eqn:E.
    + apply in_range_iff in E. contradiction.
    + now rewrite app_nil_r, set_query_same.
  - cbn [app add_query_points].
    rewrite (proj2 (in_range_iff b x) (Hpre x (or_introl eq_refl))).
    rewrite IH.
    + cbn [_query set_query]. now rewrite <- app_assoc.
    + intros y Hy. apply (Hpre y). now right.
    + exact Hbad.
Qed.

Lemma remove_query_points_stops (b b' : Beam) (pre post : list Q)
  (absent : Q) :
  remove_query_points_loop b pre = (b', Returned None) ->
  contains Qeq_bool absent (_query b') = false ->
  remove_query_points_loop b (pre ++ absent :: post)
  = (b', Returned (Some ValueError)).
Proof.
  revert b. induction pre as [|x pre IH]; intros b Hpre Habsent.
  - cbn [remove_query_points_loop] in Hpre.
    injection Hpre as ->.
    cbn [app remove_query_points_loop]. now rewrite Habsent.
  - cbn [app remove_query_points_loop] in Hpre |- *.
    destruct (contains Qeq_bool x (_query b)).
    + now apply IH.
    + discriminate.
Qed.

Lemma add_query_points_returns (b : Beam) (x_coords : list Q) :
  exists b' r, add_query_points b x_coords = (b', Returned r).
Proof.
  revert b. induction x_coords as [|x rest IH]; intros b;
    cbn [add_query_points].
  - now eexists; eexists.
  - destruct (Qle_bool (_x0 b) x && Qle_bool x (_x1 b)).
    + apply IH.
    + now eexists; eexists.
Qed.

Lemma remove_query_points_returns (b : Beam) (x_coords : list Q)
  (remove_all : bool) :
  exists b' r, remove_query_points b x_coords remove_all = (b', Returned r).
Proof.
  unfold remove_query_points. destruct remove_all.
  - now eexists; eexists.
  - revert b. induction x_coords as [|x rest IH]; intros b;
      cbn [remove_query_points_loop].
    + now eexists; eexists.
    + destruct (contains Qeq_bool x (_query b)).
      * apply IH.
      * now eexists; eexists.
Qed.

(** C10: a coordinate outside the span makes [add_query_points] return
    a [ValueError] (it raises nothing): the coordinates before it, all
    within the span, have been appended in order, the offending one and
    those after it have not.  [remove_query_points] does the same at the
    first coordinate that is not among the query points.  Neither method
    ever raises. *)
Theorem query_point_errors_are_returned (b b' : Beam)
  (pre post : list Q) (bad : Q) (pre' post' : list Q) (absent : Q) :
  (forall x, In x pre -> _x0 b <= x /\ x <= _x1 b) ->
  ~ (_x0 b <= bad /\ bad <= _x1 b) ->
  remove_query_points b pre' false = (b', Returned None) ->
  contains Qeq_bool absent (_query b') = false ->
  add_query_points b (pre ++ bad :: post)
  = (set_query b (_query b ++ pre), Returned (Some ValueError))
  /\ remove_query_points b (pre' ++ absent :: post') false
     = (b', Returned (Some ValueError))
  /\ (forall xs, exists b1 r, add_query_points b xs = (b1, Returned r))
  /\ (forall xs all, exists b1 r,
        remove_query_points b xs all = (b1, Returned r)).
Proof.
  intros Hpre Hbad Hrem Habsent.
  split; [now apply add_query_points_stops|].
  split; [now apply remove_query_points_stops|].
  split; intros; [apply add_query_points_returns
                 |apply remove_query_points_returns].
Qed.

Lemma query_point_errors_are_returned_witness :
  let b := set_query beam_of_span_5 [4] in
  (forall x, In x [1; 1] -> _x0 b <= x /\ x <= _x1 b) /\
  ~ (_x0 b <= 7 /\ 7 <= _x1 b) /\
  remove_query_points b [4] false = (set_query b [], Returned None) /\
  contains Qeq_bool 3 (_query (set_query b [])) = false /\
  add_query_points b ([1; 1] ++ 7 :: [2])
  = (set_query b (_query b ++ [1; 1]), Returned (Some ValueError)) /\
  remove_query_points b ([4] ++ 3 :: [4]) false
  = (set_query b [], Returned (Some ValueError)).
Proof.
  intros b.
  assert (H1 : forall x, In x [1; 1] -> _x0 b <= x /\ x <= _x1 b).
  { intros x [<-|[<-|[]]]; split; discriminate. }
  assert (H2 : ~ (_x0 b <= 7 /\ 7 <= _x1 b)).
  { intros [_ H]. apply H. reflexivity. }
  assert (H3 : remove_query_points b [4] false
               = (set_query b [], Returned None)) by reflexivity.
  assert (H4 : contains Qeq_bool 3 (_query (set_query b [])) = false)
    by reflexivity.
  destruct (query_point_errors_are_returned b (set_query b [])
              [1; 1] [2] 7 [4] [4] 3 H1 H2 H3 H4) as (Ha & Hr & _).
  split; [exact H1|]. split; [exact H2|]. split; [exact H3|].
  split; [exact H4|]. split; [exact Ha|exact Hr].
Defined.

(** *** Positions of supports *)

Lemma contains_app {A : Type} (eqb : A -> A -> bool) (x : A) (l l' : list A) :
  contains eqb x (l ++ l') = contains eqb x l || contains eqb x l'.
Proof.
  induction l as [|h t IH]; cbn [app contains]; [reflexivity|].
  now rewrite IH, orb_assoc.
Qed.

Lemma distinct_app_one (l : list Q) (x : Q) :
  distinct (l ++ [x]) = distinct l && negb (contains Qeq_bool x l).
Proof.
  induction l as [|h t IH]; cbn [app distinct contains]; [reflexivity|].
  rewrite IH, contains_app. cbn [contains].
  rewrite (Qeq_bool_comm x h), orb_false_r.
  destruct (contains Qeq_bool h t), (Qeq_bool h x), (distinct t),
    (contains Qeq_bool x t); reflexivity.
Qed.

(** The two tests of [add_supports] on the support at hand, as one. *)
Lemma add_supports_cons (b : Beam) (s : Support) (rest : list Support) :
  add_supports b (s :: rest)
  = if Qltb (_position s) (_x0 b) || Qltb (_x1 b) (_position s)
       || contains Qeq_bool (_position s) (positions b)
    then (b, Raised ValueError)
    else add_supports (set_supports b (_supports b ++ [s])) rest.
Proof.
  cbn [add_supports]. unfold positions.
  destruct (Qltb (_position s) (_x0 b) || Qltb (_x1 b) (_position s));
    [reflexivity|]. cbn [orb].
  destruct (_supports b) as [|s0 l0]; [reflexivity|].
  destruct (contains Qeq_bool (_position s) (map _position (s0 :: l0)));
    reflexivity.
Qed.

(** One support: it is refused when it lies off the beam or at the
    position of a support already there, and appended otherwise. *)
Lemma add_supports_one (b : Beam) (s : Support) :
  add_supports b [s]
  = if Qltb (_position s) (_x0 b) || Qltb (_x1 b) (_position s)
       || contains Qeq_bool (_position s) (positions b)
    then (b, Raised ValueError)
    else (set_supports b (_supports b ++ [s]), Returned tt).
Proof.
  now rewrite add_supports_cons.
Qed.

(** [add_supports] keeps the positions of the supports pairwise
    different. *)
Lemma add_supports_distinct (b : Beam) (supports : list Support) :
  distinct (positions b) = true ->
  distinct (positions (fst (add_supports b supports))) = true.
Proof.
  revert b. induction supports as [|s rest IH]; intros b Hb;
    [exact Hb|].
  rewrite add_supports_cons.
  destruct (Qltb (_position s) (_x0 b) || Qltb (_x1 b) (_position s));
    [exact Hb|]. cbn [orb].
  destruct (contains Qeq_bool (_position s) (positions b)) eqn:C;
    [exact Hb|].
  apply IH. unfold positions in *. cbn [_supports set_supports].
  rewrite map_app. cbn [map]. rewrite distinct_app_one.
  now rewrite Hb, C.
Qed.

Lemma contains_remove_first (x : Q) (s : Support) (l : list Support) :
  contains Qeq_bool x (map _position (remove_first same_support s l)) = true ->
  contains Qeq_bool x (map _position l) = true.
Proof.
  induction l as [|h t IH]; cbn [remove_first map contains]; [auto|].
  destruct (same_support h s); cbn [map contains].
  - intros ->. apply orb_true_r.
  - destruct (Qeq_bool (_position h) x); [reflexivity|]. exact IH.
Qed.

Lemma remove_first_distinct (s : Support) (l : list Support) :
  distinct (map _position l) = true ->
  distinct (map _position (remove_first same_support s l)) = true.
Proof.
  induction l as [|h t IH]; cbn [remove_first map distinct]; [auto|].
  intros H. apply andb_true_iff in H. destruct H as [Hh Ht].
  destruct (same_support h s); [exact Ht|].
  cbn [map distinct]. apply andb_true_iff. split; [|now apply IH].
  destruct (contains Qeq_bool (_position h)
              (map _position (remove_first same_support s t))) eqn:C;
    [|reflexivity].
  apply contains_remove_first in C. now rewrite C in Hh.
Qed.

Lemma remove_supports_loop_distinct (fuel i : nat)
  (current supports : list Support) :
  distinct (map _position current) = true ->
  distinct (map _position (remove_supports_loop fuel i current supports))
  = true.
Proof.
  revert i current. induction fuel as [|fuel IH]; intros i current H;
    cbn [remove_supports_loop]; [exact H|].
  destruct (nth_error current i) as [s|]; [|exact H].
  destruct (contains same_support s supports); apply IH;
    [now apply remove_first_distinct|exact H].
Qed.

(** [remove_supports] keeps them different as well. *)
Lemma remove_supports_distinct (b : Beam) (supports : list Support)
  (remove_all : bool) :
  distinct (positions b) = true ->
  distinct (positions (fst (remove_supports b supports remove_all))) = true.
Proof.
  intros H. unfold remove_supports. destruct remove_all; [reflexivity|].
  unfold positions. cbn [fst _supports set_supports].
  now apply remove_supports_loop_distinct.
Qed.

Lemma remove_first_length {A : Type} (eqb : A -> A -> bool) (x : A)
  (l : list A) :
  (length (remove_first eqb x l) <= length l)%nat.
Proof.
  induction l as [|h t IH]; cbn [remove_first length]; [lia|].
  destruct (eqb h x); cbn [length]; lia.
Qed.

(** The loop of [remove_supports] ends by running off the list: the
    fuel it is given, the length of the list, is never what stops it. *)
Lemma remove_supports_loop_fuel (fuel extra i : nat)
  (current supports : list Support) :
  (length current - i <= fuel)%nat ->
  remove_supports_loop (fuel + extra) i current supports
  = remove_supports_loop fuel i current supports.
Proof.
  revert i current. induction fuel as [|fuel IH]; intros i current Hlen.
  - cbn [Nat.add remove_supports_loop].
    destruct extra as [|extra]; [reflexivity|]. cbn [remove_supports_loop].
    assert (Hnone : nth_error current i = None)
      by (apply nth_error_None; lia).
    now rewrite Hnone.
  - cbn [Nat.add remove_supports_loop].
    destruct (nth_error current i) as [s|] eqn:E; [|reflexivity].
    destruct (contains same_support s supports); apply IH.
    + pose proof (remove_first_length same_support s current). lia.
    + lia.
Qed.

(** *** The restraint checks of [analyse] *)

Lemma dict_set_fresh {V : Type} (k : Q) (v : V) (d : dict V) :
  contains Qeq_bool k (map fst d) = false ->
  dict_set k v d = d ++ [(k, v)].
Proof.
  induction d as [|[k' v'] t IH]; cbn [dict_set map contains app fst];
    [reflexivity|].
  intros H. apply orb_false_iff in H. destruct H as [Hk Ht].
  now rewrite Hk, IH.
Qed.

Lemma contains_false_forall (x : Q) (l : list Q) :
  contains Qeq_bool x l = false <-> forall y, In y l -> Qeq_bool y x = false.
Proof.
  induction l as [|h t IH]; cbn [contains In].
  - split; [intros _ y []|reflexivity].
  - rewrite orb_false_iff, IH. split.
    + intros [Hh Ht] y [<-|Hy]; auto.
    + intros H. split; [|intros y Hy]; apply H; auto.
Qed.

(** Over supports at pairwise different positions none of which is a
    key yet, the comprehension adds one entry per restrained support. *)
Lemma unknowns_length_from (c : channel) (i : nat) (l : list Support)
  (d : dict (symbol * stiffness)) :
  distinct (map _position l) = true ->
  (forall a, In a l -> contains Qeq_bool (_position a) (map fst d) = false) ->
  length
    (fold_left
       (fun d a =>
          if restrained i a
          then dict_set (_position a) ((c, _position a), stiffness_at a i) d
          else d) l d)
  = (length d + count_restrained i l)%nat.
Proof.
  revert d. induction l as [|a l IH]; intros d Hdist Hfresh.
  - unfold count_restrained. cbn [fold_left filter length].
    now rewrite Nat.add_0_r.
  - cbn [map distinct] in Hdist. apply andb_true_iff in Hdist.
    destruct Hdist as [Ha Hl]. apply negb_true_iff in Ha.
    cbn [fold_left]. unfold count_restrained. cbn [filter].
    destruct (restrained i a).
    + rewrite dict_set_fresh by (apply Hfresh; now left).
      rewrite IH;
        [rewrite length_app; cbn [length];
         now rewrite <- Nat.add_assoc|exact Hl|].
      intros a' Ha'. rewrite map_app, contains_app.
      apply orb_false_iff. split; [apply Hfresh; now right|].
      cbn [map contains fst]. rewrite orb_false_r, Qeq_bool_comm.
      apply (proj1 (contains_false_forall _ _) Ha).
      now apply in_map.
    + rewrite IH; [reflexivity|exact Hl|].
      intros a' Ha'. apply Hfresh. now right.
Qed.

Lemma unknowns_length (c : channel) (i : nat) (b : Beam) :
  distinct (positions b) = true ->
  length (unknowns c i b) = count_restrained i (_supports b).
Proof.
  intros H. unfold unknowns.
  rewrite unknowns_length_from; [reflexivity|exact H|reflexivity].
Qed.

Lemma symbols_of_length (d : dict (symbol * stiffness)) :
  length (symbols_of d) = length d.
Proof. apply length_map. Qed.

(** C6: on a beam whose supports stand at pairwise different positions
    (what [add_supports] guarantees), the checks that open [analyse]
    raise [ValueError] exactly when no support restrains the axial
    channel or fewer than two transverse and rotational channels are
    restrained in all; otherwise they raise nothing. *)
Theorem determinacy_errors (b : Beam) :
  distinct (positions b) = true ->
  (analyse_preconditions b = Raise ValueError <->
   (count_restrained 0 (_supports b) < 1 \/
    count_restrained 1 (_supports b) + count_restrained 2 (_supports b) < 2)%nat)
  /\
  (analyse_preconditions b = Ok tt <->
   (1 <= count_restrained 0 (_supports b) /\
    2 <= count_restrained 1 (_supports b) + count_restrained 2 (_supports b))%nat).
Proof.
  intros H. unfold analyse_preconditions, unknowns_xx, unknowns_ym.
  rewrite length_app, !symbols_of_length.
  unfold unknowns_x, unknowns_y, unknowns_m.
  rewrite !unknowns_length by exact H.
  destruct (Nat.ltb_spec (count_restrained 0 (_supports b)) 1);
    [split; split; [intros _; now left|reflexivity|discriminate|lia]|].
  destruct (Nat.ltb_spec
              (count_restrained 1 (_supports b)
               + count_restrained 2 (_supports b)) 2);
    split; split; try reflexivity; try discriminate; try lia.
Qed.

Lemma determinacy_errors_witness :
  exists b : Beam,
    on_pin_and_roller = Ok b /\
    distinct (positions b) = true /\
    analyse_preconditions b = Ok tt.
Proof.
  eexists. split; [vm_compute; reflexivity|].
  match goal with
  | |- distinct (positions ?b) = true /\ _ =>
      assert (H : distinct (positions b) = true) by reflexivity
  end.
  split; [exact H|].
  apply (proj2 (determinacy_errors _ H)).
  split; cbn; lia.
Defined.

(** *** The equations of external equilibrium *)

Lemma sum_of_zeros (es : list expr) :
  (forall e, In e es -> e = zero) -> sum es = zero.
Proof.
  induction es as [|e es IH]; intros H; [reflexivity|].
  cbn [sum fold_right]. fold (sum es).
  rewrite (H e) by now left. rewrite IH; [reflexivity|].
  intros e' He'. apply H. now right.
Qed.

(** C1: the transverse equation [F_Ry] is assembled from the axial
    intensities of the loads, the very sum [F_Rx] uses.  On a beam whose
    loads have no axial intensity it therefore reads "the transverse
    reactions sum to zero", whatever the transverse loads are. *)
Theorem transverse_equation_sums_axial_intensities (b : Beam)
  (assign : symbol -> Q) :
  (forall l, In l (_loads b) -> _x l = zero) ->
  known (F_Ry b) = sum (map _x (_loads b)) /\
  known (F_Ry b) = known (F_Rx b) /\
  known (F_Ry b) = zero /\
  residual (F_Ry b) assign
  = Some (0 + fold_right (fun s acc => assign s + acc) 0
                (symbols_of (unknowns_y b))).
Proof.
  intros H.
  assert (Hz : known (F_Ry b) = zero).
  { cbn [known F_Ry]. apply sum_of_zeros.
    intros e He. apply in_map_iff in He. destruct He as (l & <- & Hl).
    now apply H. }
  repeat split; try assumption.
  unfold residual. now rewrite Hz.
Qed.

Lemma transverse_equation_sums_axial_intensities_witness :
  exists b : Beam,
    simply_supported = Ok b /\
    (forall l, In l (_loads b) -> _x l = zero) /\
    map _y (_loads b) = [[(-10 * 1, SingularityFunction (5 # 2) (-1))]] /\
    known (F_Ry b) = zero /\
    residual (F_Ry b) five_each = Some (0 + (5 + (5 + 0))).
Proof.
  eexists. split; [vm_compute; reflexivity|].
  match goal with
  | |- (forall l, In l (_loads ?b) -> _ ) /\ _ =>
      assert (H : forall l, In l (_loads b) -> _x l = zero)
  end.
  { intros l [<-|[]]. reflexivity. }
  split; [exact H|]. split; [reflexivity|].
  destruct (transverse_equation_sums_axial_intensities _ five_each H)
    as (_ & _ & Hz & Hr).
  split; [exact Hz|exact Hr].
Defined.

(** C2: the simply supported example does not go through.  [add_loads]
    raises [TypeError] on the point load and attaches nothing; and with
    the load put in [_loads] directly, the transverse equation that
    [analyse] assembles is [y_0 + y_5 = 0], which the documented
    reactions of 5 and 5 do not satisfy. *)
Theorem simply_supported_example_fails :
  exists (b0 b : Beam) (load : Load),
    on_pin_and_roller = Ok b0 /\
    midspan_load = Ok load /\
    simply_supported = Ok b /\
    add_loads b0 [load] = (b0, Raised TypeError) /\
    _loads (fst (add_loads b0 [load])) = [] /\
    analyse_preconditions b = Ok tt /\
    F_Ry b = {| known := zero;
                unknown := [(transverse, 0); (transverse, 5)] |} /\
    exists r : Q, residual (F_Ry b) five_each = Some r /\ r == 10.
Proof.
  do 3 eexists.
  split; [vm_compute; reflexivity|].
  split; [vm_compute; reflexivity|].
  split; [vm_compute; reflexivity|].
  split; [apply add_loads_cons|].
  split; [reflexivity|].
  split; [reflexivity|].
  split; [reflexivity|].
  eexists. split; reflexivity.
Qed.

End BeamFacts.

(** ** More on [loading.py] *)

Module LoadingMore.
Import Loading Evaluation.

Lemma span_passes (a b : Q) (k : result Load) :
  0 <= a -> a < b ->
  (assert_positive_number (fst (a, b)) ;;;
   assert_strictly_positive_number (snd (a, b) - fst (a, b)) ;;; k) = k.
Proof.
  intros Ha Hab. cbn [fst snd].
  rewrite assert_positive_number_ok by assumption.
  rewrite assert_strictly_positive_number_ok by lra.
  reflexivity.
Qed.

Section Projection.

Variables cos_deg sin_deg : Q -> Q.

(** X1: the moment about zero a uniform load stores is the integral of
    its transverse intensity times [x] over its span. *)
Theorem udl_moment_is_span_integral (q a b angle : Q) :
  0 <= a -> a < b -> significant (sin_deg angle) 8 = true ->
  exists u : Load,
    UDL cos_deg sin_deg q (a, b) angle = Ok u /\
    _m0 u == moment_integral (_y0 u) a b /\
    _m0 u == q * sin_deg angle * (b * b - a * a) / 2.
Proof.
  intros Ha Hab Hsig. unfold UDL.
  rewrite span_passes by assumption.
  eexists. split; [reflexivity|].
  unfold with_functions, _add_load_functions. rewrite Hsig.
  cbn [_m0 _y0 fst snd step_over sub scale map app].
  unfold moment_integral. cbn [fold_right fst snd moment_primitive].
  unfold macaulay.
  rewrite (proj2 (Qle_bool_iff a b)) by lra.
  rewrite (proj2 (Qle_bool_iff a a)) by lra.
  rewrite (proj2 (Qle_bool_iff b b)) by lra.
  rewrite (proj2 (Qle_bool_false_iff b a)) by lra.
  cbn [Z.of_nat Pos.of_succ_nat Pos.succ].
  split; field.
Qed.

(** X2: the moment about zero of a point load is the integral of its
    intensity times [x] over any stretch [0, L] that contains it, and
    equals force times arm. *)
Theorem point_load_moment_is_integral (force coord angle L : Q) :
  0 <= coord -> coord <= L -> significant (sin_deg angle) 8 = true ->
  exists p : Load,
    PointLoad cos_deg sin_deg force coord angle = Ok p /\
    _y0 p = [(sin_deg angle * (force * 1), SingularityFunction coord (-1))] /\
    _m0 p == moment_integral (_y0 p) 0 L.
Proof.
  intros Hc HL Hsig. unfold PointLoad.
  rewrite assert_positive_number_ok by assumption. cbn [bind].
  eexists. split; [reflexivity|].
  unfold with_functions, _add_load_functions. rewrite Hsig.
  cbn [_m0 _y0 fst snd scale map]. split; [reflexivity|].
  unfold moment_integral. cbn [fold_right fst snd moment_primitive].
  unfold macaulay.
  rewrite (proj2 (Qle_bool_iff coord L)) by assumption.
  change (Z.of_nat 0) with 0%Z. cbn [Qpower].
  destruct (Qle_bool coord 0) eqn:E.
  - apply Qle_bool_iff in E.
    assert (H0 : coord == 0) by lra. rewrite H0. ring.
  - ring.
Qed.

(** X3: a trapezoidal load weighs on the origin as the uniform load of
    its first end value plus the triangle that rises from nothing to
    the difference of its end values. *)
Theorem trapezoid_moment_splits (qa qb a b angle : Q) :
  0 <= a -> a < b ->
  exists t u tri : Load,
    TrapezoidalLoad cos_deg sin_deg (qa, qb) (a, b) angle = Ok t /\
    UDL cos_deg sin_deg qa (a, b) angle = Ok u /\
    TrapezoidalLoad cos_deg sin_deg (0, qb - qa) (a, b) angle = Ok tri /\
    _m0 t == _m0 u + _m0 tri.
Proof.
  intros Ha Hab. unfold TrapezoidalLoad, UDL.
  rewrite !span_passes by assumption.
  do 3 eexists. repeat (split; [reflexivity|]).
  unfold with_functions, _add_load_functions. cbn [_m0 fst snd].
  field.
Qed.

(** X4: the shear function of a uniform load is nil up to the start of
    the span, grows in proportion to the loaded length inside it, and
    stays at the whole load beyond its end. *)
Theorem udl_shear_profile (q a b angle t : Q) :
  0 <= a -> a < b -> significant (sin_deg angle) 8 = true ->
  exists (u : Load) (v : Q),
    UDL cos_deg sin_deg q (a, b) angle = Ok u /\
    eval (_y1 u) t = Some v /\
    (t <= a -> v == 0) /\
    (a <= t -> t <= b -> v == sin_deg angle * q * (t - a)) /\
    (b <= t -> v == sin_deg angle * q * (b - a)).
Proof.
  intros Ha Hab Hsig. unfold UDL.
  rewrite span_passes by assumption.
  eexists. eexists. split; [reflexivity|].
  unfold with_functions, _add_load_functions. rewrite Hsig.
  cbn [_y1 fst snd step_over sub scale map app integrate integrate_term
       Z.ltb Z.compare Z.add eval eval_term Z.to_nat Pos.to_nat Pos.iter_op
       Nat.add].
  split; [reflexivity|].
  unfold macaulay. change (Z.of_nat (Pos.to_nat 1)) with 1%Z.
  change (inject_Z 1) with 1.
  split; [|split]; intros.
  - destruct (Qle_bool a t) eqn:E1; destruct (Qle_bool b t) eqn:E2;
      try apply Qle_bool_iff in E1; try apply Qle_bool_iff in E2;
      try (exfalso; lra).
    + assert (Hta : t == a) by lra. rewrite Hta. field.
    + field.
  - rewrite (proj2 (Qle_bool_iff a t)) by assumption.
    destruct (Qle_bool b t) eqn:E2.
    + apply Qle_bool_iff in E2. assert (Htb : t == b) by lra.
      rewrite Htb. field.
    + field.
  - rewrite (proj2 (Qle_bool_iff a t)) by lra.
    rewrite (proj2 (Qle_bool_iff b t)) by assumption.
    field.
Qed.

(** X5: when the sine of the angle is too small to count, a uniform
    load carries no transverse intensity and no shear, yet its moment
    about zero is still the full product with that sine: nil only if
    the sine, the force or the lever is. *)
Theorem udl_moment_survives_rounding (q a b angle : Q) :
  0 <= a -> a < b -> significant (sin_deg angle) 8 = false ->
  exists u : Load,
    UDL cos_deg sin_deg q (a, b) angle = Ok u /\
    _y0 u = zero /\ _y1 u = zero /\
    _m0 u == q * (b - a) * ((a + b) / 2) * sin_deg angle /\
    (~ q == 0 -> ~ sin_deg angle == 0 -> ~ _m0 u == 0).
Proof.
  intros Ha Hab Hsig. unfold UDL.
  rewrite span_passes by assumption.
  eexists. split; [reflexivity|].
  unfold with_functions, _add_load_functions. rewrite Hsig.
  cbn [_y0 _y1 _m0 fst snd integrate map].
  split; [reflexivity|]. split; [reflexivity|].
  assert (Hm : q * (b - a) * (a + (b - a) / 2) * sin_deg angle
               == q * (b - a) * ((a + b) / 2) * sin_deg angle) by field.
  split; [exact Hm|].
  intros Hq Hs Hzero. rewrite Hm in Hzero.
  assert (Hba : ~ b - a == 0) by lra.
  assert (Hab2 : ~ (a + b) / 2 == 0).
  { intros H. unfold Qdiv in H. apply Qmult_integral in H.
    destruct H as [H|H]; [lra|discriminate H]. }
  apply Qmult_integral in Hzero. destruct Hzero as [Hzero|]; [|contradiction].
  apply Qmult_integral in Hzero. destruct Hzero as [Hzero|]; [|contradiction].
  apply Qmult_integral in Hzero. destruct Hzero; contradiction.
Qed.

(** X21: a point torque carries the load functions of a vertical point
    load of the same magnitude at the same place: the same intensities,
    normal force and shear force; only the moment about zero differs,
    the torque itself instead of force times arm. *)
Theorem point_torque_acts_as_vertical_force (torque coord : Q) :
  0 <= coord ->
  exists pt pl : Load,
    PointTorque cos_deg sin_deg torque coord = Ok pt /\
    PointLoad cos_deg sin_deg torque coord 90 = Ok pl /\
    _x0 pt = _x0 pl /\ _y0 pt = _y0 pl /\
    _x1 pt = _x1 pl /\ _y1 pt = _y1 pl /\
    _m0 pt = torque /\ _m0 pl = torque * coord * sin_deg 90.
Proof.
  intros Hc. unfold PointTorque, PointLoad.
  rewrite assert_positive_number_ok by exact Hc. cbn [bind].
  do 2 eexists. repeat (split; [reflexivity|]).
  unfold with_functions, _add_load_functions.
  cbn [_x0 _y0 _x1 _y1 _m0]. repeat split; reflexivity.
Qed.

End Projection.

Lemma significant_one : significant (RightAngles.sin_deg 90) 8 = true.
Proof. vm_compute. reflexivity. Qed.

Lemma udl_moment_is_span_integral_witness :
  exists u : Load,
    UDL RightAngles.cos_deg RightAngles.sin_deg 2 (1, 4) 90 = Ok u /\
    _m0 u == moment_integral (_y0 u) 1 4 /\
    _m0 u == 2 * RightAngles.sin_deg 90 * (4 * 4 - 1 * 1) / 2.
Proof.
  apply (udl_moment_is_span_integral RightAngles.cos_deg RightAngles.sin_deg
           2 1 4 90); [lra|lra|exact significant_one].
Defined.

Lemma point_load_moment_is_integral_witness :
  exists p : Load,
    PointLoad RightAngles.cos_deg RightAngles.sin_deg (-10) (5 # 2) 90 = Ok p /\
    _y0 p = [(RightAngles.sin_deg 90 * (-10 * 1),
              SingularityFunction (5 # 2) (-1))] /\
    _m0 p == moment_integral (_y0 p) 0 5.
Proof.
  apply (point_load_moment_is_integral RightAngles.cos_deg
           RightAngles.sin_deg (-10) (5 # 2) 90 5);
    [lra|lra|exact significant_one].
Defined.

Lemma trapezoid_moment_splits_witness :
  exists t u tri : Load,
    TrapezoidalLoad RightAngles.cos_deg RightAngles.sin_deg (2, 3) (1, 4) 90
    = Ok t /\
    UDL RightAngles.cos_deg RightAngles.sin_deg 2 (1, 4) 90 = Ok u /\
    TrapezoidalLoad RightAngles.cos_deg RightAngles.sin_deg (0, 3 - 2) (1, 4) 90
    = Ok tri /\
    _m0 t == _m0 u + _m0 tri.
Proof.
  apply (trapezoid_moment_splits RightAngles.cos_deg RightAngles.sin_deg
           2 3 1 4 90); lra.
Defined.

Lemma udl_shear_profile_witness :
  exists (u : Load) (v : Q),
    UDL RightAngles.cos_deg RightAngles.sin_deg 2 (1, 4) 90 = Ok u /\
    eval (_y1 u) 5 = Some v /\
    (5 <= 1 -> v == 0) /\
    (1 <= 5 -> 5 <= 4 -> v == RightAngles.sin_deg 90 * 2 * (5 - 1)) /\
    (4 <= 5 -> v == RightAngles.sin_deg 90 * 2 * (4 - 1)).
Proof.
  apply (udl_shear_profile RightAngles.cos_deg RightAngles.sin_deg
           2 1 4 90 5); [lra|lra|exact significant_one].
Defined.

Lemma udl_moment_survives_rounding_witness :
  exists u : Load,
    UDL StraightAngle.cos_deg StraightAngle.sin_deg 2 (1, 4) 180 = Ok u /\
    _y0 u = zero /\ _y1 u = zero /\
    _m0 u == 2 * (4 - 1) * ((1 + 4) / 2) * StraightAngle.sin_deg 180 /\
    (~ 2 == 0 -> ~ StraightAngle.sin_deg 180 == 0 -> ~ _m0 u == 0).
Proof.
  apply (udl_moment_survives_rounding StraightAngle.cos_deg
           StraightAngle.sin_deg 2 1 4 180); [lra|lra|].
  vm_compute. reflexivity.
Defined.

Lemma point_torque_acts_as_vertical_force_witness :
  exists pt pl : Load,
    PointTorque RightAngles.cos_deg RightAngles.sin_deg 2 (7 # 2) = Ok pt /\
    PointLoad RightAngles.cos_deg RightAngles.sin_deg 2 (7 # 2) 90 = Ok pl /\
    _x0 pt = _x0 pl /\ _y0 pt = _y0 pl /\
    _x1 pt = _x1 pl /\ _y1 pt = _y1 pl /\
    _m0 pt = 2 /\ _m0 pl = 2 * (7 # 2) * RightAngles.sin_deg 90.
Proof.
  apply (point_torque_acts_as_vertical_force RightAngles.cos_deg
           RightAngles.sin_deg 2 (7 # 2)). lra.
Defined.

End LoadingMore.

(** ** More on [indeterminatebeam.py] *)

Module BeamMore.
Import Indeterminatebeam Scenario Determinancy Queries Sessions.
Import BeamFacts.

(** *** Supports as the constructor builds them *)

Lemma setitem_length {A : Type} (l : list A) (i : nat) (v : A) :
  length (setitem l i v) = length l.
Proof.
  revert i. induction l as [|h t IH]; intros [|i]; cbn [setitem length];
    try reflexivity.
  now rewrite IH.
Qed.

Lemma override_length (k : option Q) (i : nat) (l : list stiffness) :
  length (override k i l) = length l.
Proof.
  unfold override. destruct k as [v|]; [|reflexivity].
  destruct (given (Some v)); [apply setitem_length|reflexivity].
Qed.

(** What a successful construction fixes of the object. *)
Lemma new_Support_fields self coord fixed kx ky s :
  new_Support self coord fixed kx ky = Ok s ->
  0 <= coord /\ negative kx = false /\ negative ky = false /\
  all_boolean fixed = true /\ length fixed = 3%nat /\
  _position s = coord /\
  _stiffness s
  = override ky 1
      (override kx 0
         (map (fun a : Z => if (a =? 0)%Z then Stiff 0 else oo) fixed)) /\
  _DOF s = map (fun e => flag (truthy e)) (_stiffness s) /\
  _fixed s = map (fun e => flag (is_oo e && truthy e)) (_stiffness s).
Proof.
  unfold new_Support. intros H.
  unfold assert_positive_number at 1 in H.
  destruct (Qltb coord 0) eqn:Ec; [discriminate|]. cbn [bind] in H.
  pose proof (validate_if_given_raises kx) as Hkx.
  destruct (validate_if_given kx); [|discriminate]. cbn [bind raised] in *.
  pose proof (validate_if_given_raises ky) as Hky.
  destruct (validate_if_given ky); [|discriminate]. cbn [bind raised] in *.
  destruct (all_boolean fixed) eqn:Eb; [|discriminate]. cbn [negb] in H.
  destruct (length fixed =? 3)%nat eqn:El; [|discriminate]. cbn [negb] in H.
  injection H as <-. cbn [_position _stiffness _DOF _fixed].
  apply Qltb_false_iff in Ec. apply Nat.eqb_eq in El.
  repeat split; auto.
  apply map_ext. intros e. destruct e; reflexivity.
Qed.

Lemma new_Support_three self coord fixed kx ky s :
  new_Support self coord fixed kx ky = Ok s ->
  exists e0 e1 e2, _stiffness s = [e0; e1; e2].
Proof.
  intros H. apply new_Support_fields in H.
  destruct H as (_ & _ & _ & _ & Hlen & _ & Hs & _).
  assert (Hl : length (_stiffness s) = 3%nat).
  { rewrite Hs, !override_length, length_map. exact Hlen. }
  destruct (_stiffness s) as [|e0 [|e1 [|e2 [|e3 l]]]]; try discriminate.
  now exists e0, e1, e2.
Qed.

Lemma built_DOF (s : Support) :
  built s ->
  _DOF s = [flag (restrained 0 s); flag (restrained 1 s);
            flag (restrained 2 s)].
Proof.
  intros (self & coord & fixed & kx & ky & H).
  destruct (new_Support_three _ _ _ _ _ _ H) as (e0 & e1 & e2 & Hs).
  apply new_Support_fields in H.
  destruct H as (_ & _ & _ & _ & _ & _ & _ & HD & _).
  unfold restrained, stiffness_at. rewrite HD, Hs. reflexivity.
Qed.

(** X6: a support that the constructor accepts has exactly three
    channels; its [_DOF] marks the channels whose stiffness is not zero
    and its [_fixed] those whose stiffness is infinite, so a fixed
    channel is always a restrained one; and the rotational channel is
    either free or rigid, never a spring. *)
Theorem constructed_support_channels (self : address) (coord : Q)
  (fixed : list Z) (kx ky : option Q) (s : Support) :
  new_Support self coord fixed kx ky = Ok s ->
  length (_stiffness s) = 3%nat /\
  _DOF s = [flag (restrained 0 s); flag (restrained 1 s);
            flag (restrained 2 s)] /\
  _fixed s = [flag (is_oo (stiffness_at s 0)); flag (is_oo (stiffness_at s 1));
              flag (is_oo (stiffness_at s 2))] /\
  (forall i, is_oo (stiffness_at s i) = true -> restrained i s = true) /\
  (stiffness_at s 2 = oo \/ stiffness_at s 2 = Stiff 0) /\
  0 <= _position s.
Proof.
  intros H.
  destruct (new_Support_three _ _ _ _ _ _ H) as (e0 & e1 & e2 & Hs).
  assert (HD : _DOF s = [flag (restrained 0 s); flag (restrained 1 s);
                         flag (restrained 2 s)]).
  { apply built_DOF. now exists self, coord, fixed, kx, ky. }
  apply new_Support_fields in H.
  destruct H as (Hc & _ & _ & _ & Hlen & Hp & Hst & _ & HF).
  split; [now rewrite Hs|]. split; [exact HD|].
  split.
  { rewrite HF. unfold stiffness_at. rewrite Hs. cbn [map nth].
    destruct e0, e1, e2; reflexivity. }
  split.
  { intros i Hi. unfold restrained.
    destruct (stiffness_at s i); [discriminate|reflexivity]. }
  split; [|now rewrite Hp].
  unfold stiffness_at. rewrite Hst.
  destruct fixed as [|a0 [|a1 [|a2 [|a3 l]]]]; try discriminate.
  destruct kx as [vx|], ky as [vy|]; unfold override; cbn [map];
    repeat match goal with
           | |- context [given ?k] => destruct (given k)
           end;
    cbn [setitem nth]; destruct (a2 =? 0)%Z; auto.
Qed.

(** X7: a stiffness [kx] above zero makes the axial channel a spring
    whatever the tuple says of it: the channel is restrained, it is not
    fixed, and the other two channels are those of the tuple. *)
Theorem spring_overrides_tuple (self : address) (coord k : Q)
  (a0 a1 a2 : Z) :
  0 <= coord -> 0 < k -> all_boolean [a0; a1; a2] = true ->
  exists s : Support,
    new_Support self coord [a0; a1; a2] (Some k) None = Ok s /\
    _stiffness s
    = [Stiff k; if (a1 =? 0)%Z then Stiff 0 else oo;
       if (a2 =? 0)%Z then Stiff 0 else oo] /\
    restrained 0 s = true /\
    nth 0 (_DOF s) 0%Z = 1%Z /\ nth 0 (_fixed s) 0%Z = 0%Z.
Proof.
  intros Hc Hk Hb. unfold new_Support.
  rewrite assert_positive_number_ok by exact Hc. cbn [bind].
  assert (Hg : given (Some k) = true).
  { unfold given. apply negb_true_iff.
    destruct (Qeq_bool k 0) eqn:E; [|reflexivity].
    apply Qeq_bool_iff in E. lra. }
  unfold validate_if_given. rewrite Hg.
  rewrite assert_positive_number_ok by lra. cbn [bind].
  rewrite Hb. cbn [negb length Nat.eqb].
  eexists. split; [reflexivity|].
  unfold override. rewrite Hg.
  cbn [_stiffness _DOF _fixed map setitem nth].
  unfold restrained, stiffness_at. cbn [_stiffness nth truthy is_oo].
  unfold given in Hg. rewrite Hg.
  repeat split; reflexivity.
Qed.

Lemma spring_overrides_tuple_witness :
  exists s : Support,
    new_Support 1%nat (15 # 2) [0; 1; 0]%Z (Some 5) None = Ok s /\
    _stiffness s
    = [Stiff 5; if (1 =? 0)%Z then Stiff 0 else oo;
       if (0 =? 0)%Z then Stiff 0 else oo] /\
    restrained 0 s = true /\
    nth 0 (_DOF s) 0%Z = 1%Z /\ nth 0 (_fixed s) 0%Z = 0%Z.
Proof.
  apply (spring_overrides_tuple 1%nat (15 # 2) 5 0 1 0);
    [lra|lra|reflexivity].
Defined.

Lemma constructed_support_channels_witness :
  exists s : Support,
    new_Support 1%nat 0 [1; 1; 0]%Z None (Some 5) = Ok s /\
    length (_stiffness s) = 3%nat /\
    (stiffness_at s 2 = oo \/ stiffness_at s 2 = Stiff 0).
Proof.
  eexists. split; [reflexivity|].
  destruct (constructed_support_channels 1%nat 0 [1; 1; 0]%Z None (Some 5) _
              eq_refl) as (H3 & _ & _ & _ & Hr & _).
  split; [exact H3|exact Hr].
Defined.

(** *** [check_determinancy] *)

Lemma count_restrained_cons (i : nat) (s : Support) (l : list Support) :
  Z.of_nat (count_restrained i (s :: l))
  = (flag (restrained i s) + Z.of_nat (count_restrained i l))%Z.
Proof.
  unfold count_restrained. cbn [filter].
  destruct (restrained i s); cbn [length flag]; lia.
Qed.

Lemma sum_of_DOF (l : list Support) (u0 u1 u2 : Z) :
  Forall built l ->
  fold_left (fun acc support => u <- acc ;; np_add (_DOF support) u)
    l (Ok [u0; u1; u2])
  = Ok [ (Z.of_nat (count_restrained 0 l) + u0)%Z;
         (Z.of_nat (count_restrained 1 l) + u1)%Z;
         (Z.of_nat (count_restrained 2 l) + u2)%Z ].
Proof.
  intros H. revert u0 u1 u2.
  induction H as [|s l Hs Hl IH]; intros u0 u1 u2; cbn [fold_left].
  - reflexivity.
  - cbn [bind]. rewrite (built_DOF s Hs).
    unfold np_add. cbn [length Nat.eqb combine map fst snd].
    rewrite IH, !count_restrained_cons.
    repeat (f_equal; try lia).
Qed.

(** The answer in terms of the numbers of restrained channels. *)
Lemma check_determinancy_counts (b : Beam) :
  Forall built (_supports b) ->
  let ux := Z.of_nat (count_restrained 0 (_supports b)) in
  let uy := Z.of_nat (count_restrained 1 (_supports b)) in
  let um := Z.of_nat (count_restrained 2 (_supports b)) in
  let equations := (3 - flag (ux =? 0) - flag (uy =? 0))%Z in
  check_determinancy b
  = Ok (if (ux + uy + um =? 0)%Z then No_reaction_forces
        else if (ux + uy + um <? equations)%Z then Unstable
        else Degree (ux + uy + um - equations)).
Proof.
  intros H ux uy um equations. unfold check_determinancy.
  rewrite (sum_of_DOF _ 0 0 0 H). cbn [bind nth total fold_right].
  rewrite !Z.add_0_r. fold ux uy um.
  replace (ux + (uy + um))%Z with (ux + uy + um)%Z by lia.
  subst equations.
  destruct (ux =? 0)%Z, (uy =? 0)%Z; cbn [flag];
    destruct (ux + uy + um =? 0)%Z; try reflexivity;
    change (3 - 1 - 1)%Z with 1%Z; change (3 - 1 - 0)%Z with 2%Z;
    change (3 - 0 - 1)%Z with 2%Z; change (3 - 0 - 0)%Z with 3%Z;
    change (3 - 1)%Z with 2%Z;
    match goal with
    | |- context [(?x <? ?y)%Z] => destruct (x <? y)%Z; reflexivity
    end.
Qed.

(** X8: on supports built by the constructor [check_determinancy] never
    raises.  It returns the "no reaction forces" error exactly when no
    channel is restrained at all, the "unstable" error exactly when no
    rotation is restrained and at most one support restrains each of
    the two translations, and otherwise a degree that is never
    negative. *)
Theorem check_determinancy_answers (b : Beam) :
  Forall built (_supports b) ->
  let ux := count_restrained 0 (_supports b) in
  let uy := count_restrained 1 (_supports b) in
  let um := count_restrained 2 (_supports b) in
  exists a : answer,
    check_determinancy b = Ok a /\
    (a = No_reaction_forces <-> (ux = 0 /\ uy = 0 /\ um = 0)%nat) /\
    (a = Unstable <-> (um = 0 /\ ux <= 1 /\ uy <= 1 /\ 1 <= ux + uy)%nat) /\
    (forall d, a = Degree d -> (0 <= d)%Z).
Proof.
  intros H ux uy um.
  pose proof (check_determinancy_counts b H) as Hc. cbv zeta in Hc.
  fold ux uy um in Hc.
  eexists. split; [exact Hc|].
  destruct (Z.eqb_spec (Z.of_nat ux) 0), (Z.eqb_spec (Z.of_nat uy) 0);
    cbn [flag];
    destruct (Z.eqb_spec (Z.of_nat ux + Z.of_nat uy + Z.of_nat um) 0);
    try match goal with
        | |- context [(?x <? ?y)%Z] => destruct (Z.ltb_spec x y)
        end;
    (split; [split; [try discriminate; intros _; lia
                    |try reflexivity; intros; exfalso; lia]|]);
    (split; [split; [try discriminate; intros _; lia
                    |try reflexivity; intros; exfalso; lia]|]);
    intros d Hd; try discriminate; injection Hd as <-; lia.
Qed.

(** X9: whenever [analyse] would accept the supports,
    [check_determinancy] returns a degree: the number of restrained
    channels less three, or less two when no support restrains the
    transverse channel. *)
Theorem analyse_accepts_implies_degree (b : Beam) :
  Forall built (_supports b) ->
  distinct (positions b) = true ->
  analyse_preconditions b = Ok tt ->
  check_determinancy b
  = Ok (Degree
          (Z.of_nat (count_restrained 0 (_supports b)
                     + count_restrained 1 (_supports b)
                     + count_restrained 2 (_supports b))
           - (if (count_restrained 1 (_supports b) =? 0)%nat then 2 else 3))).
Proof.
  intros Hb Hd Ha.
  unfold analyse_preconditions, unknowns_xx, unknowns_ym in Ha.
  rewrite length_app, !symbols_of_length in Ha.
  unfold unknowns_x, unknowns_y, unknowns_m in Ha.
  rewrite !unknowns_length in Ha by exact Hd.
  destruct (Nat.ltb_spec (count_restrained 0 (_supports b)) 1);
    [discriminate|].
  destruct (Nat.ltb_spec
              (count_restrained 1 (_supports b)
               + count_restrained 2 (_supports b)) 2); [discriminate|].
  rewrite (check_determinancy_counts b Hb). cbv zeta.
  destruct (Nat.eqb_spec (count_restrained 1 (_supports b)) 0) as [E|E];
    destruct (Z.eqb_spec (Z.of_nat (count_restrained 0 (_supports b))) 0);
    destruct (Z.eqb_spec (Z.of_nat (count_restrained 1 (_supports b))) 0);
    try lia; cbn [flag];
    match goal with
    | |- context [(?x =? 0)%Z] => destruct (Z.eqb_spec x 0); try lia
    end;
    match goal with
    | |- context [(?x <? ?y)%Z] => destruct (Z.ltb_spec x y); try lia
    end;
    do 2 f_equal; lia.
Qed.

(** X10: the two methods disagree on beams without axial restraint:
    with two or more transverse and rotational restraints
    [check_determinancy] reports a degree of indeterminacy, while the
    checks of [analyse] raise. *)
Theorem determinate_yet_refused (b : Beam) :
  Forall built (_supports b) ->
  distinct (positions b) = true ->
  count_restrained 0 (_supports b) = 0%nat ->
  (2 <= count_restrained 1 (_supports b)
        + count_restrained 2 (_supports b))%nat ->
  analyse_preconditions b = Raise ValueError /\
  exists d : Z, check_determinancy b = Ok (Degree d) /\ (0 <= d)%Z.
Proof.
  intros Hb Hd H0 H2. split.
  - unfold analyse_preconditions, unknowns_xx.
    rewrite symbols_of_length. unfold unknowns_x.
    rewrite unknowns_length by exact Hd. now rewrite H0.
  - rewrite (check_determinancy_counts b Hb). cbv zeta. rewrite H0.
    cbn [Z.of_nat Z.eqb flag Z.add].
    destruct (Z.eqb_spec (Z.of_nat (count_restrained 1 (_supports b))) 0);
      cbn [flag];
      match goal with
      | |- context [(?x =? 0)%Z] => destruct (Z.eqb_spec x 0); try lia
      end;
      match goal with
      | |- context [(?x <? ?y)%Z] => destruct (Z.ltb_spec x y); try lia
      end;
      eexists; (split; [reflexivity|lia]).
Qed.

Lemma check_determinancy_answers_witness :
  exists b : Beam,
    on_pin_and_roller = Ok b /\
    Forall built (_supports b) /\
    exists a : answer,
      check_determinancy b = Ok a /\ (forall d, a = Degree d -> (0 <= d)%Z).
Proof.
  eexists. split; [vm_compute; reflexivity|].
  match goal with
  | |- Forall built ?l /\ _ => assert (Hb : Forall built l)
  end.
  { repeat constructor.
    - now exists 1%nat, 0, [1; 1; 0]%Z, None, None.
    - now exists 2%nat, 5, [0; 1; 0]%Z, None, None. }
  split; [exact Hb|].
  destruct (check_determinancy_answers _ Hb) as (a & Ha & _ & _ & Hd).
  exists a. split; assumption.
Defined.

Lemma analyse_accepts_implies_degree_witness :
  exists b : Beam,
    on_pin_and_roller = Ok b /\
    Forall built (_supports b) /\
    distinct (positions b) = true /\
    analyse_preconditions b = Ok tt /\
    check_determinancy b = Ok (Degree 0).
Proof.
  eexists. split; [vm_compute; reflexivity|].
  match goal with
  | |- Forall built ?l /\ _ => assert (Hb : Forall built l)
  end.
  { repeat constructor.
    - now exists 1%nat, 0, [1; 1; 0]%Z, None, None.
    - now exists 2%nat, 5, [0; 1; 0]%Z, None, None. }
  split; [exact Hb|]. split; [reflexivity|]. split; [reflexivity|].
  exact (analyse_accepts_implies_degree _ Hb eq_refl eq_refl).
Defined.

Lemma determinate_yet_refused_witness :
  exists b : Beam,
    Examples.on_two_rollers = Ok b /\
    Forall built (_supports b) /\
    distinct (positions b) = true /\
    analyse_preconditions b = Raise ValueError /\
    exists d : Z, check_determinancy b = Ok (Degree d) /\ (0 <= d)%Z.
Proof.
  eexists. split; [vm_compute; reflexivity|].
  match goal with
  | |- Forall built ?l /\ _ => assert (Hb : Forall built l)
  end.
  { repeat constructor.
    - now exists 1%nat, 0, [0; 1; 0]%Z, None, None.
    - now exists 2%nat, 5, [0; 1; 0]%Z, None, None. }
  split; [exact Hb|]. split; [reflexivity|].
  apply (determinate_yet_refused _ Hb eq_refl eq_refl).
  cbn. lia.
Defined.

(** *** Removing supports *)

Lemma same_support_refl (s : Support) : same_support s s = true.
Proof. apply Nat.eqb_refl. Qed.

Lemma same_support_sym (s t : Support) : same_support s t = same_support t s.
Proof. apply Nat.eqb_sym. Qed.

Lemma contains_false_all {A : Type} (eqb : A -> A -> bool) (x : A)
  (l : list A) :
  contains eqb x l = false <-> forall e, In e l -> eqb e x = false.
Proof.
  induction l as [|h t IH]; cbn [contains In].
  - split; [intros _ e []|reflexivity].
  - rewrite orb_false_iff, IH. split.
    + intros [Hh Ht] e [<-|He]; auto.
    + intros H. split; [|intros e He]; apply H; auto.
Qed.

Lemma remove_first_app_miss {A : Type} (eqb : A -> A -> bool) (x : A)
  (l1 l2 : list A) :
  (forall t, In t l1 -> eqb t x = false) ->
  remove_first eqb x (l1 ++ l2) = l1 ++ remove_first eqb x l2.
Proof.
  induction l1 as [|h t IH]; intros H; cbn [app remove_first];
    [reflexivity|].
  rewrite (H h) by now left. rewrite IH; [reflexivity|].
  intros e He. apply H. now right.
Qed.

Lemma nth_error_here {A : Type} (l1 l2 : list A) (x : A) :
  nth_error (l1 ++ x :: l2) (length l1) = Some x.
Proof.
  induction l1 as [|h t IH]; [reflexivity|exact IH].
Qed.

Lemma separate_middle (l1 l2 : list Support) (s : Support) :
  separate (l1 ++ s :: l2) = true ->
  separate (l1 ++ l2) = true /\
  forall t, In t (l1 ++ l2) -> same_support t s = false.
Proof.
  induction l1 as [|h t IH]; cbn [app separate]; intros H;
    apply andb_true_iff in H; destruct H as [Hh Ht].
  - split; [exact Ht|]. apply negb_true_iff in Hh.
    apply (proj1 (contains_false_all _ _ _) Hh).
  - apply negb_true_iff in Hh. rewrite contains_app in Hh.
    apply orb_false_iff in Hh. destruct Hh as [Hh1 Hh2].
    cbn [contains] in Hh2. apply orb_false_iff in Hh2.
    destruct Hh2 as [Hsh Hh2].
    destruct (IH Ht) as [IH1 IH2]. split.
    + apply andb_true_iff. split; [|exact IH1].
      apply negb_true_iff. rewrite contains_app. now rewrite Hh1, Hh2.
    + intros e [<-|He]; [now rewrite same_support_sym|now apply IH2].
Qed.

Lemma remove_supports_loop_past_end (fuel i : nat)
  (current supports : list Support) :
  (length current <= i)%nat ->
  remove_supports_loop fuel i current supports = current.
Proof.
  intros H. destruct fuel as [|fuel]; cbn [remove_supports_loop];
    [reflexivity|].
  assert (Hn : nth_error current i = None) by now apply nth_error_None.
  now rewrite Hn.
Qed.

(** The loop walks over supports it is not asked to remove, removes the
    first it is asked to, and finds nothing more if nothing else is
    asked for. *)
Lemma remove_supports_loop_first (given l2 : list Support) (s : Support) :
  contains same_support s given = true ->
  forall l1 l0 fuel,
    (forall t, In t (l0 ++ l1) -> same_support t s = false) ->
    (forall t, In t (l0 ++ l1 ++ l2) ->
               contains same_support t given = false) ->
    (length l1 < fuel)%nat ->
    remove_supports_loop fuel (length l0) (l0 ++ l1 ++ s :: l2) given
    = l0 ++ l1 ++ l2.
Proof.
  intros Hs. induction l1 as [|t l1 IH]; intros l0 fuel Hdiff Hnone Hfuel;
    (destruct fuel as [|fuel]; [cbn [length] in Hfuel; lia|]);
    cbn [remove_supports_loop app].
  - rewrite nth_error_here, Hs.
    rewrite remove_first_app_miss
      by (intros e He; apply Hdiff; now rewrite app_nil_r).
    cbn [remove_first]. rewrite same_support_refl.
    apply remove_supports_loop_absent. exact Hnone.
  - rewrite nth_error_here.
    rewrite (Hnone t) by (apply in_or_app; right; now left).
    replace (l0 ++ t :: l1 ++ s :: l2) with ((l0 ++ [t]) ++ l1 ++ s :: l2)
      by now rewrite <- app_assoc.
    replace (S (length l0)) with (length (l0 ++ [t]))
      by (rewrite length_app; cbn [length]; lia).
    rewrite IH.
    + now rewrite <- app_assoc.
    + intros e He. apply Hdiff. now rewrite <- app_assoc in He.
    + intros e He. apply Hnone. now rewrite <- app_assoc in He.
    + cbn [length] in Hfuel. lia.
Qed.

Lemma unknowns_listed_from (c : channel) (i : nat) (l : list Support)
  (d : dict (symbol * stiffness)) :
  distinct (map _position l) = true ->
  (forall a, In a l -> contains Qeq_bool (_position a) (map fst d) = false) ->
  symbols_of
    (fold_left
       (fun d a =>
          if restrained i a
          then dict_set (_position a) ((c, _position a), stiffness_at a i) d
          else d) l d)
  = symbols_of d ++ map (fun a => (c, _position a)) (filter (restrained i) l).
Proof.
  revert d. induction l as [|a l IH]; intros d Hdist Hfresh.
  - cbn [fold_left filter map]. now rewrite app_nil_r.
  - cbn [map distinct] in Hdist. apply andb_true_iff in Hdist.
    destruct Hdist as [Ha Hl]. apply negb_true_iff in Ha.
    cbn [fold_left filter].
    destruct (restrained i a).
    + rewrite dict_set_fresh by (apply Hfresh; now left).
      rewrite IH; [|exact Hl|].
      * unfold symbols_of. rewrite map_app. cbn [map fst snd].
        now rewrite <- app_assoc.
      * intros a' Ha'. rewrite map_app, contains_app.
        apply orb_false_iff. split; [apply Hfresh; now right|].
        cbn [map contains fst]. rewrite orb_false_r, Qeq_bool_comm.
        apply (proj1 (contains_false_all _ _ _) Ha).
        now apply in_map.
    + apply IH; [exact Hl|].
      intros a' Ha'. apply Hfresh. now right.
Qed.

(** X22: with the supports at pairwise different positions, [analyse]
    takes one unknown for each support restrained in a channel, named
    after the position of that support and listed in the order the
    supports were attached; the transverse unknowns come before the
    rotational ones. *)
Theorem unknowns_follow_supports (b : Beam) :
  distinct (positions b) = true ->
  unknowns_xx b
  = map (fun a => (axial, _position a)) (filter (restrained 0) (_supports b))
  /\
  unknowns_ym b
  = map (fun a => (transverse, _position a))
      (filter (restrained 1) (_supports b))
    ++ map (fun a => (rotational, _position a))
         (filter (restrained 2) (_supports b)).
Proof.
  intros H. unfold unknowns_xx, unknowns_ym, unknowns_x, unknowns_y,
    unknowns_m, unknowns.
  rewrite !unknowns_listed_from by (exact H || reflexivity).
  split; reflexivity.
Qed.

Lemma unknowns_follow_supports_witness :
  exists b : Beam,
    on_pin_and_roller = Ok b /\
    distinct (positions b) = true /\
    unknowns_xx b = [(axial, 0)] /\
    unknowns_ym b = [(transverse, 0); (transverse, 5)].
Proof.
  eexists. split; [vm_compute; reflexivity|].
  match goal with
  | |- distinct (positions ?b) = true /\ _ =>
      assert (H : distinct (positions b) = true) by reflexivity;
      destruct (unknowns_follow_supports b H) as [Hx Hym]
  end.
  split; [exact H|]. split; [rewrite Hx|rewrite Hym]; reflexivity.
Defined.

(** X11: removing one attached support removes that support and no
    other, provided no object is attached twice. *)
Theorem remove_supports_removes_one (b : Beam) (s : Support) :
  separate (_supports b) = true -> In s (_supports b) ->
  remove_supports b [s] false
  = (set_supports b (remove_first same_support s (_supports b)), Returned tt)
  /\ contains same_support s
       (remove_first same_support s (_supports b)) = false
  /\ length (remove_first same_support s (_supports b))
     = (length (_supports b) - 1)%nat.
Proof.
  intros Hsep Hin. destruct (in_split _ _ Hin) as (l1 & l2 & E).
  rewrite E in Hsep. destruct (separate_middle _ _ _ Hsep) as [_ Hdiff].
  assert (Hrem : remove_first same_support s (_supports b) = l1 ++ l2).
  { rewrite E, remove_first_app_miss
      by (intros t Ht; apply Hdiff, in_or_app; now left).
    cbn [remove_first]. now rewrite same_support_refl. }
  assert (Hnone : forall t, In t (l1 ++ l2) ->
                            contains same_support t [s] = false).
  { intros t Ht. cbn [contains]. rewrite orb_false_r, same_support_sym.
    now apply Hdiff. }
  split; [|split].
  - unfold remove_supports. rewrite Hrem. f_equal. f_equal.
    rewrite E.
    apply (remove_supports_loop_first [s] l2 s) with (l0 := []).
    + cbn [contains]. now rewrite same_support_refl.
    + intros t Ht. apply Hdiff, in_or_app. now left.
    + exact Hnone.
    + rewrite length_app. cbn [length]. lia.
  - rewrite Hrem. apply contains_false_all. intros e He. now apply Hdiff.
  - rewrite Hrem, E, !length_app. cbn [length]. lia.
Qed.

(** X12: a support added to a beam and removed again leaves the beam as
    it was, when the support is accepted and is not an object already
    attached. *)
Theorem add_then_remove_support (b : Beam) (s : Support) :
  Examples.refused b s = false ->
  (forall t, In t (_supports b) -> same_support t s = false) ->
  add_supports b [s] = (set_supports b (_supports b ++ [s]), Returned tt) /\
  remove_supports (fst (add_supports b [s])) [s] false = (b, Returned tt).
Proof.
  intros Hok Hfresh. rewrite add_supports_one.
  unfold Examples.refused in Hok. rewrite Hok.
  split; [reflexivity|].
  unfold remove_supports. cbn [fst _supports set_supports].
  pose proof (remove_supports_loop_first [s] [] s) as H.
  specialize (H ltac:(cbn [contains]; now rewrite same_support_refl)
                (_supports b) [] (length (_supports b ++ [s]))).
  cbn [app length] in H. rewrite H.
  - rewrite app_nil_r. f_equal. destruct b. reflexivity.
  - exact Hfresh.
  - intros t Ht. rewrite app_nil_r in Ht. cbn [contains].
    rewrite orb_false_r, same_support_sym. now apply Hfresh.
  - rewrite length_app. cbn [length]. lia.
Qed.

Lemma contains_self (l given : list Support) :
  (forall t, In t l -> In t given) ->
  forall t, In t l -> contains same_support t given = true.
Proof.
  intros H t Ht. specialize (H t Ht). clear Ht.
  induction given as [|g given IH]; [destruct H|].
  cbn [contains]. destruct H as [->|H].
  - now rewrite same_support_refl.
  - rewrite IH by exact H. apply orb_true_r.
Qed.

Lemma remove_supports_loop_alternates (given : list Support) :
  forall fuel rest kept,
    separate (kept ++ rest) = true ->
    (forall t, In t rest -> contains same_support t given = true) ->
    (length rest <= fuel)%nat ->
    remove_supports_loop fuel (length kept) (kept ++ rest) given
    = kept ++ every_other rest.
Proof.
  induction fuel as [|fuel IH]; intros rest kept Hsep Hall Hfuel.
  - destruct rest; [reflexivity|cbn [length] in Hfuel; lia].
  - destruct rest as [|a rest].
    + apply remove_supports_loop_past_end. rewrite app_nil_r. lia.
    + cbn [remove_supports_loop].
      rewrite nth_error_here, (Hall a) by now left.
      destruct (separate_middle _ _ _ Hsep) as [Hsep' Hdiff].
      rewrite remove_first_app_miss
        by (intros e He; apply Hdiff, in_or_app; now left).
      cbn [remove_first]. rewrite same_support_refl.
      destruct rest as [|c rest].
      * cbn [every_other]. apply remove_supports_loop_past_end.
        rewrite app_nil_r. lia.
      * replace (kept ++ c :: rest) with ((kept ++ [c]) ++ rest)
          by now rewrite <- app_assoc.
        replace (S (length kept)) with (length (kept ++ [c]))
          by (rewrite length_app; cbn [length]; lia).
        rewrite IH.
        -- cbn [every_other]. now rewrite <- app_assoc.
        -- rewrite <- app_assoc. exact Hsep'.
        -- intros t Ht. apply Hall. right. now right.
        -- cbn [length] in Hfuel. lia.
Qed.

(** X13: asked to remove every attached support, [remove_supports]
    removes the first, the third, the fifth and so on, and leaves every
    second one on the beam: the loop walks the list it is shortening. *)
Theorem remove_supports_leaves_every_other (b : Beam)
  (supports : list Support) :
  separate (_supports b) = true ->
  (forall t, In t (_supports b) -> In t supports) ->
  remove_supports b supports false
  = (set_supports b (every_other (_supports b)), Returned tt).
Proof.
  intros Hsep Hall. unfold remove_supports. f_equal. f_equal.
  apply (remove_supports_loop_alternates supports
           (length (_supports b)) (_supports b) []).
  - exact Hsep.
  - now apply contains_self.
  - lia.
Qed.

(** X14: [remove_loads], which walks its arguments and not the list it
    shortens, does remove every attached load when asked to. *)
Theorem remove_loads_removes_all (b : Beam) :
  remove_loads b (_loads b) false = (set_loads b [], Returned tt).
Proof.
  unfold remove_loads. f_equal.
  assert (H : forall l b', _loads b' = l ->
                fold_left
                  (fun acc load =>
                     if contains same_load load (_loads acc)
                     then set_loads acc
                            (remove_first same_load load (_loads acc))
                     else acc) l b'
                = set_loads b' []).
  { induction l as [|a l IH]; intros b' E; cbn [fold_left].
    - rewrite <- E. symmetry. apply set_loads_same.
    - rewrite E. cbn [contains remove_first].
      assert (R : same_load a a = true) by apply Nat.eqb_refl.
      rewrite !R. cbn [orb].
      rewrite IH; reflexivity. }
  now apply H.
Qed.

Lemma remove_supports_removes_one_witness :
  exists (b : Beam) (s : Support),
    Examples.on_three_supports = Ok b /\
    nth_error (_supports b) 1 = Some s /\
    separate (_supports b) = true /\ In s (_supports b) /\
    map _position (_supports (fst (remove_supports b [s] false))) = [0; 6].
Proof.
  eexists. eexists. split; [vm_compute; reflexivity|].
  split; [reflexivity|].
  match goal with
  | |- separate (_supports ?b) = true /\ In ?s _ /\ _ =>
      assert (Hsep : separate (_supports b) = true) by reflexivity;
      assert (Hin : In s (_supports b)) by (right; left; reflexivity);
      destruct (remove_supports_removes_one b s Hsep Hin) as [H _]
  end.
  split; [exact Hsep|]. split; [exact Hin|].
  rewrite H. reflexivity.
Defined.

Lemma add_then_remove_support_witness :
  exists (b : Beam) (s : Support),
    on_pin_and_roller = Ok b /\
    new_Support 9%nat (5 # 2) [0; 1; 0]%Z None None = Ok s /\
    Examples.refused b s = false /\
    (forall t, In t (_supports b) -> same_support t s = false) /\
    remove_supports (fst (add_supports b [s])) [s] false = (b, Returned tt).
Proof.
  eexists. eexists. split; [vm_compute; reflexivity|].
  split; [vm_compute; reflexivity|].
  match goal with
  | |- Examples.refused ?b ?s = false /\ _ =>
      assert (Hok : Examples.refused b s = false) by reflexivity;
      assert (Hfresh : forall t, In t (_supports b) ->
                                 same_support t s = false)
        by (intros t [<-|[<-|[]]]; reflexivity);
      destruct (add_then_remove_support b s Hok Hfresh) as [_ H]
  end.
  split; [exact Hok|]. split; [exact Hfresh|exact H].
Defined.

Lemma remove_supports_leaves_every_other_witness :
  exists b : Beam,
    Examples.on_three_supports = Ok b /\
    separate (_supports b) = true /\
    map _position
      (_supports (fst (remove_supports b (_supports b) false))) = [3].
Proof.
  eexists. split; [vm_compute; reflexivity|].
  match goal with
  | |- separate (_supports ?b) = true /\ _ =>
      assert (Hsep : separate (_supports b) = true) by reflexivity;
      pose proof (remove_supports_leaves_every_other b (_supports b) Hsep
                    (fun t Ht => Ht)) as H
  end.
  split; [exact Hsep|]. rewrite H. reflexivity.
Defined.

(** *** Adding supports *)

Lemma add_supports_app (b b1 : Beam) (pre rest : list Support) :
  add_supports b pre = (b1, Returned tt) ->
  add_supports b (pre ++ rest) = add_supports b1 rest /\
  _supports b1 = _supports b ++ pre.
Proof.
  revert b. induction pre as [|s pre IH]; intros b H.
  - cbn [add_supports] in H. injection H as ->.
    now rewrite app_nil_r.
  - cbn [app]. rewrite add_supports_cons in H |- *.
    destruct (Qltb (_position s) (_x0 b) || Qltb (_x1 b) (_position s)
              || contains Qeq_bool (_position s) (positions b));
      [discriminate|].
    destruct (IH _ H) as [IH1 IH2]. split; [exact IH1|].
    rewrite IH2. cbn [_supports set_supports]. now rewrite <- app_assoc.
Qed.

(** X15: a call of [add_supports] that meets a support it refuses
    raises there and undoes nothing: the supports that preceded it in
    the call stay attached, those that follow are not looked at. *)
Theorem add_supports_stops_at_refusal (b b1 : Beam)
  (pre post : list Support) (bad : Support) :
  add_supports b pre = (b1, Returned tt) ->
  Examples.refused b1 bad = true ->
  add_supports b (pre ++ bad :: post) = (b1, Raised ValueError) /\
  _supports b1 = _supports b ++ pre.
Proof.
  intros Hpre Hbad. destruct (add_supports_app b b1 pre (bad :: post) Hpre)
    as [H1 H2].
  split; [|exact H2]. rewrite H1, add_supports_cons.
  unfold Examples.refused in Hbad. now rewrite Hbad.
Qed.

Lemma add_supports_stops_at_refusal_witness :
  exists (b pin roller : _) (b1 : Beam),
    default_beam 5 = Ok b /\
    new_Support 1%nat 0 [1; 1; 0]%Z None None = Ok pin /\
    new_Support 2%nat 0 [0; 1; 0]%Z None None = Ok roller /\
    add_supports b [pin] = (b1, Returned tt) /\
    Examples.refused b1 roller = true /\
    add_supports b ([pin] ++ roller :: [pin]) = (b1, Raised ValueError) /\
    _supports b1 = [pin].
Proof.
  do 4 eexists. split; [vm_compute; reflexivity|].
  split; [vm_compute; reflexivity|]. split; [vm_compute; reflexivity|].
  match goal with
  | |- add_supports ?b [?p] = (?b1, _) /\ Examples.refused _ ?r = true /\ _ =>
      assert (H1 : add_supports b [p]
                   = (set_supports b (_supports b ++ [p]), Returned tt))
        by reflexivity;
      assert (H2 : Examples.refused (set_supports b (_supports b ++ [p])) r
                   = true) by reflexivity;
      destruct (add_supports_stops_at_refusal b _ [p] [p] r H1 H2)
        as [H3 H4]
  end.
  split; [exact H1|]. split; [exact H2|]. split; [exact H3|exact H4].
Defined.

(** *** Query points *)

(** X16: a coordinate within the span that is not yet a query point can
    be added and removed again, and the beam is as before. *)
Theorem add_then_remove_query_point (b : Beam) (x : Q) :
  _x0 b <= x -> x <= _x1 b ->
  contains Qeq_bool x (_query b) = false ->
  add_query_points b [x] = (set_query b (_query b ++ [x]), Returned None) /\
  remove_query_points (fst (add_query_points b [x])) [x] false
  = (b, Returned None).
Proof.
  intros Hlo Hhi Hnew. cbn [add_query_points].
  rewrite (proj2 (in_range_iff b x) (conj Hlo Hhi)).
  split; [reflexivity|].
  unfold remove_query_points. cbn [fst remove_query_points_loop _query
                                   set_query].
  rewrite contains_app. cbn [contains].
  rewrite Qeq_bool_refl, orb_true_r.
  rewrite remove_first_app_miss
    by (apply (proj1 (contains_false_all _ _ _) Hnew)).
  cbn [remove_first]. rewrite Qeq_bool_refl, app_nil_r.
  f_equal. destruct b. reflexivity.
Qed.

Lemma add_then_remove_query_point_witness :
  _x0 beam_of_span_5 <= 3 /\ 3 <= _x1 beam_of_span_5 /\
  contains Qeq_bool 3 (_query beam_of_span_5) = false /\
  remove_query_points (fst (add_query_points beam_of_span_5 [3])) [3] false
  = (beam_of_span_5, Returned None).
Proof.
  assert (H1 : _x0 beam_of_span_5 <= 3) by (cbn; lra).
  assert (H2 : 3 <= _x1 beam_of_span_5) by (cbn; lra).
  destruct (add_then_remove_query_point beam_of_span_5 3 H1 H2 eq_refl)
    as [_ H].
  repeat split; assumption.
Defined.

(** *** Beams reached by adding and removing *)

Lemma remove_first_subset {A : Type} (eqb : A -> A -> bool) (x t : A)
  (l : list A) :
  In t (remove_first eqb x l) -> In t l.
Proof.
  induction l as [|h l IH]; cbn [remove_first]; [auto|].
  destruct (eqb h x).
  - intros H. now right.
  - intros [<-|H]; [now left|right; now apply IH].
Qed.

Lemma remove_supports_loop_subset (fuel i : nat)
  (current supports : list Support) (t : Support) :
  In t (remove_supports_loop fuel i current supports) -> In t current.
Proof.
  revert i current. induction fuel as [|fuel IH]; intros i current;
    cbn [remove_supports_loop]; [auto|].
  destruct (nth_error current i) as [s|]; [|auto].
  destruct (contains same_support s supports); intros H; apply IH in H;
    [now apply remove_first_subset in H|exact H].
Qed.

Lemma sound_add_loads span b loads :
  Examples.sound span b -> Examples.sound span (fst (add_loads b loads)).
Proof.
  destruct loads as [|load rest]; [auto|]. now rewrite add_loads_cons.
Qed.

Lemma sound_remove_loads span b loads remove_all :
  Examples.sound span b ->
  Examples.sound span (fst (remove_loads b loads remove_all)).
Proof.
  intros H. assert (E : fst (remove_loads b loads remove_all) = b);
    [|now rewrite E].
  destruct H as (_ & _ & Hl & _).
  unfold remove_loads. destruct remove_all; cbn [fst].
  - rewrite <- Hl. apply set_loads_same.
  - induction loads as [|a l IH]; cbn [fold_left]; [reflexivity|].
    rewrite Hl. exact IH.
Qed.

Lemma sound_add_supports span b supports :
  Examples.sound span b -> Examples.sound span (fst (add_supports b supports)).
Proof.
  revert b. induction supports as [|s rest IH]; intros b H; [exact H|].
  rewrite add_supports_cons.
  destruct (Qltb (_position s) (_x0 b)) eqn:E0; [exact H|].
  destruct (Qltb (_x1 b) (_position s)) eqn:E1; [exact H|].
  destruct (contains Qeq_bool (_position s) (positions b)) eqn:Ec; [exact H|].
  cbn [orb]. apply IH.
  destruct H as (H0 & H1 & Hl & Hr & Hd & Hs & Hq).
  unfold Examples.sound. cbn [_x0 _x1 _loads _reactions _query _supports
                                set_supports].
  do 4 (split; [assumption|]). split; [|split; [|exact Hq]].
  - unfold positions. cbn [_supports set_supports].
    rewrite map_app. cbn [map]. rewrite distinct_app_one.
    fold (positions b). now rewrite Hd, Ec.
  - intros t H. apply in_app_or in H.
    destruct H as [H|[<-|[]]]; [now apply Hs|].
    apply Qltb_false_iff in E0. apply Qltb_false_iff in E1.
    rewrite H0 in E0. rewrite H1 in E1. now split.
Qed.

Lemma sound_remove_supports span b supports remove_all :
  Examples.sound span b ->
  Examples.sound span (fst (remove_supports b supports remove_all)).
Proof.
  intros (H0 & H1 & Hl & Hr & Hd & Hs & Hq).
  unfold remove_supports. destruct remove_all; cbn [fst];
    unfold Examples.sound;
    cbn [_x0 _x1 _loads _reactions _query _supports set_supports];
    do 4 (split; [assumption|]); (split; [|split; [|exact Hq]]).
  - reflexivity.
  - intros s [].
  - unfold positions. cbn [_supports set_supports].
    now apply remove_supports_loop_distinct.
  - intros t H. apply remove_supports_loop_subset in H. now apply Hs.
Qed.

Lemma sound_add_query_points span b x_coords :
  Examples.sound span b ->
  Examples.sound span (fst (add_query_points b x_coords)).
Proof.
  revert b. induction x_coords as [|x rest IH]; intros b H; [exact H|].
  cbn [add_query_points].
  destruct (Qle_bool (_x0 b) x && Qle_bool x (_x1 b)) eqn:E; [|exact H].
  apply IH. apply in_range_iff in E. destruct E as [Elo Ehi].
  destruct H as (H0 & H1 & Hl & Hr & Hd & Hs & Hq).
  unfold Examples.sound. cbn [_x0 _x1 _loads _reactions _query _supports
                                set_query].
  do 5 (split; [assumption|]). split; [exact Hs|].
  intros t H. apply in_app_or in H.
  destruct H as [H|[<-|[]]]; [now apply Hq|].
  rewrite H0 in Elo. rewrite H1 in Ehi. now split.
Qed.

Lemma sound_remove_query_points span b x_coords remove_all :
  Examples.sound span b ->
  Examples.sound span (fst (remove_query_points b x_coords remove_all)).
Proof.
  unfold remove_query_points. destruct remove_all.
  - intros (H0 & H1 & Hl & Hr & Hd & Hs & Hq). cbn [fst].
    unfold Examples.sound. cbn [_x0 _x1 _loads _reactions _query _supports
                                  set_query].
    do 5 (split; [assumption|]). split; [exact Hs|]. intros x [].
  - revert b. induction x_coords as [|x rest IH]; intros b H; [exact H|].
    cbn [remove_query_points_loop].
    destruct (contains Qeq_bool x (_query b)); [|exact H].
    apply IH. destruct H as (H0 & H1 & Hl & Hr & Hd & Hs & Hq).
    unfold Examples.sound. cbn [_x0 _x1 _loads _reactions _query _supports
                                  set_query].
    do 5 (split; [assumption|]). split; [exact Hs|].
    intros t H. apply remove_first_subset in H. now apply Hq.
Qed.

(** *** Extremes over the sampled beam *)

Lemma larger_bounds (a b : Q) :
  a <= larger a b /\ b <= larger a b /\ (larger a b = a \/ larger a b = b).
Proof.
  unfold larger. destruct (Qltb a b) eqn:E.
  - apply Qltb_true_iff in E. repeat split; [lra|lra|now right].
  - apply Qltb_false_iff in E. repeat split; [lra|lra|now left].
Qed.

Lemma smaller_bounds (a b : Q) :
  smaller a b <= a /\ smaller a b <= b /\
  (smaller a b = a \/ smaller a b = b).
Proof.
  unfold smaller. destruct (Qltb b a) eqn:E.
  - apply Qltb_true_iff in E. repeat split; [lra|lra|now right].
  - apply Qltb_false_iff in E. repeat split; [lra|lra|now left].
Qed.

Lemma fold_larger (t : list Q) (h : Q) :
  In (fold_left larger t h) (h :: t) /\
  forall y, In y (h :: t) -> y <= fold_left larger t h.
Proof.
  revert h. induction t as [|a t IH]; intros h; cbn [fold_left].
  - split; [now left|]. intros y [<-|[]]. lra.
  - destruct (IH (larger h a)) as [Hin Hle].
    destruct (larger_bounds h a) as (Hh & Ha & Hc). split.
    + destruct Hin as [Hin|Hin]; [|right; now right].
      rewrite <- Hin. destruct Hc as [->| ->]; [now left|right; now left].
    + intros y [<-|[<-|Hy]].
      * apply Qle_trans with (larger h a); [exact Hh|]. apply Hle. now left.
      * apply Qle_trans with (larger h a); [exact Ha|]. apply Hle. now left.
      * apply Hle. now right.
Qed.

Lemma fold_smaller (t : list Q) (h : Q) :
  In (fold_left smaller t h) (h :: t) /\
  forall y, In y (h :: t) -> fold_left smaller t h <= y.
Proof.
  revert h. induction t as [|a t IH]; intros h; cbn [fold_left].
  - split; [now left|]. intros y [<-|[]]. lra.
  - destruct (IH (smaller h a)) as [Hin Hle].
    destruct (smaller_bounds h a) as (Hh & Ha & Hc). split.
    + destruct Hin as [Hin|Hin]; [|right; now right].
      rewrite <- Hin. destruct Hc as [->| ->]; [now left|right; now left].
    + intros y [<-|[<-|Hy]].
      * apply Qle_trans with (smaller h a); [|exact Hh]. apply Hle. now left.
      * apply Qle_trans with (smaller h a); [|exact Ha]. apply Hle. now left.
      * apply Hle. now right.
Qed.

Lemma samples_not_empty (b : Beam) (func : Q -> Q) :
  exists h t, samples b func = h :: t.
Proof.
  unfold samples, linspace. rewrite map_app. cbn [map].
  destruct (map func _) as [|h t]; cbn [app]; eauto.
Qed.

(** X18: asked for the absolute maximum, a query returns, rounded to
    three places, the largest absolute value among the thousand
    samples of the function: a value that bounds every sample in
    modulus and is the modulus of one of them. *)
Theorem absmax_is_largest_modulus (lambdify : expr -> Q -> Q) (b : Beam)
  (x_coord : coordinates) (sym_func : expr) :
  exists v : Q,
    _get_query_value lambdify b x_coord sym_func false false true
    = Value (round v 3) /\
    (forall y, In y (samples b (lambdify sym_func)) -> Qabs y <= v) /\
    (exists y, In y (samples b (lambdify sym_func)) /\ Qabs y == v).
Proof.
  unfold _get_query_value. cbn [orb negb].
  destruct (samples_not_empty b (lambdify sym_func)) as (h & t & E).
  rewrite E. cbn [minimum maximum].
  destruct (fold_larger t h) as [Mi Mb].
  destruct (fold_smaller t h) as [mi mb].
  set (M := fold_left larger t h) in *.
  set (m := fold_left smaller t h) in *.
  exists (larger (Qabs m) M). split; [reflexivity|].
  destruct (larger_bounds (Qabs m) M) as (Hm & HM & Hc). split.
  - intros y Hy. specialize (Mb y Hy). specialize (mb y Hy).
    apply Qabs_case; intros _.
    + lra.
    + pose proof (Qle_Qabs (- m)) as Hneg. rewrite Qabs_opp in Hneg. lra.
  - destruct Hc as [Hc|Hc]; rewrite Hc.
    + exists m. split; [exact mi|reflexivity].
    + exists M. split; [exact Mi|].
      rewrite Hc in Hm. apply Qabs_pos. pose proof (Qabs_nonneg m). lra.
Qed.

(** X19: the sample points of a query are a thousand, they start at the
    left end of the beam and finish at its right end, and the middle of
    the beam is never one of them. *)
Theorem midspan_is_not_sampled (b : Beam) :
  _x0 b < _x1 b ->
  let x_vec := linspace (_x0 b) (_x1 b) 1000 in
  length x_vec = 1000%nat /\
  (exists first, hd_error x_vec = Some first /\ first == _x0 b) /\
  last x_vec 0 = _x1 b /\
  forall t, In t x_vec -> ~ t == (_x0 b + _x1 b) / 2.
Proof.
  intros Hlt x_vec. subst x_vec. unfold linspace.
  change (1000 - 1)%nat with 999%nat.
  split; [now rewrite length_app, length_map, length_seq|].
  split.
  { replace (seq 0 999) with (0%nat :: seq 1 998) by reflexivity.
    cbn [map app hd_error]. eexists. split; [reflexivity|].
    change (inject_Z (Z.of_nat 0)) with 0. ring. }
  split; [apply last_last|].
  intros t Ht Hmid. apply in_app_or in Ht. destruct Ht as [Ht|[<-|[]]].
  - apply in_map_iff in Ht. destruct Ht as (i & <- & _).
    set (z := Z.of_nat i) in *.
    assert (E : (_x1 b - _x0 b) * (2 * inject_Z z - 999) == 0).
    { setoid_replace ((_x1 b - _x0 b) * (2 * inject_Z z - 999))
        with (2 * 999 * ((_x0 b + inject_Z z
                            * ((_x1 b - _x0 b) / inject_Z (Z.of_nat 999)))
                         - (_x0 b + _x1 b) / 2))
        by (change (inject_Z (Z.of_nat 999)) with 999; field).
      rewrite Hmid. ring. }
    apply Qmult_integral in E. destruct E as [E|E]; [lra|].
    assert (E' : inject_Z (2 * z - 999) == inject_Z 0).
    { rewrite <- E. unfold Z.sub.
      rewrite inject_Z_plus, inject_Z_mult, inject_Z_opp. ring. }
    unfold Qeq in E'. cbn [inject_Z Qnum Qden] in E'. lia.
  - setoid_replace ((_x0 b + _x1 b) / 2) with ((_x0 b + _x1 b) * (1 # 2))
      in Hmid by field.
    lra.
Qed.

Lemma midspan_is_not_sampled_witness :
  _x0 beam_of_span_5 < _x1 beam_of_span_5 /\
  forall t, In t (linspace 0 5 1000) -> ~ t == 5 / 2.
Proof.
  assert (H : _x0 beam_of_span_5 < _x1 beam_of_span_5) by reflexivity.
  split; [exact H|].
  destruct (midspan_is_not_sampled beam_of_span_5 H) as (_ & _ & _ & Hm).
  intros t Ht Ht2. apply (Hm t Ht). rewrite Ht2. reflexivity.
Defined.

End BeamMore.

(** ** [units.py] *)

Module UnitsFacts.
Import String Units.
Local Open Scope string_scope.

Lemma lookup_in {V : Type} (k : string) (v : V) (d : table V) :
  lookup k d = Some v -> In (k, v) d.
Proof.
  induction d as [|[k' v'] t IH]; cbn [lookup]; [discriminate|].
  destruct (String.eqb_spec k' k) as [->|_].
  - intros H. injection H as ->. now left.
  - intros H. right. now apply IH.
Qed.

Ltac each_entry H :=
  unfold factor in H;
  match type of H with
  | context [lookup ?q METRIC_UNITS] =>
      let d := fresh "d" in
      set (d := lookup q METRIC_UNITS) in H; vm_compute in d; subst d
  | context [lookup ?q IMPERIAL_UNITS] =>
      let d := fresh "d" in
      set (d := lookup q IMPERIAL_UNITS) in H; vm_compute in d; subst d
  end;
  cbv beta iota in H;
  apply lookup_in in H; cbn [In] in H;
  repeat match type of H with
         | _ \/ _ => destruct H as [H|H]
         end;
  try contradiction; injection H as <- <-.

Ltac settle :=
  repeat split; intros v Hv; vm_compute in Hv;
  try discriminate; injection Hv as <-; vm_compute; reflexivity.

(** X20: in both tables the derived units agree with the base units:
    a moment unit [f.l] converts by the factor of the force [f] times
    that of the length [l], and a distributed-load or stiffness unit
    [f/l] by the factor of [f] divided by that of [l], for every force
    and length unit of the table. *)
Theorem derived_units_agree (units : table (table Q)) :
  units = METRIC_UNITS \/ units = IMPERIAL_UNITS ->
  forall f F l L,
    factor units "force" f = Some F ->
    factor units "length" l = Some L ->
    (forall v, factor units "moment" (String.append f (String.append "." l))
               = Some v -> v == F * L) /\
    (forall v,
        factor units "distributed" (String.append f (String.append "/" l))
        = Some v -> v == F / L) /\
    (forall v,
        factor units "stiffness" (String.append f (String.append "/" l))
        = Some v -> v == F / L).
Proof.
  intros [-> | ->] f F l L Hf Hl; each_entry Hf; each_entry Hl; settle.
Qed.

Lemma derived_units_agree_witness :
  factor METRIC_UNITS "force" "kN" = Some kN /\
  factor METRIC_UNITS "length" "mm" = Some mm /\
  forall v, factor METRIC_UNITS "stiffness" "kN/mm" = Some v -> v == kN / mm.
Proof.
  split; [reflexivity|]. split; [reflexivity|].
  exact (proj2 (proj2 (derived_units_agree METRIC_UNITS (or_introl eq_refl)
                         "kN" kN "mm" mm eq_refl eq_refl))).
Defined.

End UnitsFacts.

(** ** The beam with any object in its load list *)

Module OpenbeamFacts.
Import Indeterminatebeam Scenario.
Import BeamFacts BeamMore.
Module O := Openbeam.

Section Objects.

Context {foreign : Type}.
Variable foreign_equal : foreign -> O.object foreign -> bool.
Variable assembles : foreign -> bool.

(** *** What the methods do to the beam without its loads *)

Lemma forget_set_loads (b : O.Beam foreign) l :
  O.forget (O.set_loads b l) = O.forget b.
Proof. reflexivity. Qed.

Lemma forget_set_supports (b : O.Beam foreign) l :
  O.forget (O.set_supports b l) = set_supports (O.forget b) l.
Proof. reflexivity. Qed.

Lemma forget_set_query (b : O.Beam foreign) l :
  O.forget (O.set_query b l) = set_query (O.forget b) l.
Proof. reflexivity. Qed.

Lemma forget_add_loads (b : O.Beam foreign) loads :
  O.forget (fst (O.add_loads b loads)) = O.forget b.
Proof.
  revert b. induction loads as [|load rest IH]; intros b; [reflexivity|].
  cbn [O.add_loads]. unfold unpack_pair, getitem.
  destruct load as [l|f].
  - destruct (load_class l); cbn [is_distributed is_point fst]; reflexivity.
  - now rewrite IH.
Qed.

Lemma forget_remove_loads (b : O.Beam foreign) loads remove_all :
  O.forget (fst (O.remove_loads foreign_equal b loads remove_all))
  = O.forget b.
Proof.
  unfold O.remove_loads. destruct remove_all; cbn [fst]; [reflexivity|].
  revert b. induction loads as [|load rest IH]; intros b; cbn [fold_left];
    [reflexivity|].
  destruct (contains (O.matches foreign_equal) load (O._loads b));
    now rewrite IH.
Qed.

Lemma open_add_supports_cons (b : O.Beam foreign) (s : Support) rest :
  O.add_supports b (s :: rest)
  = if Qltb (_position s) (O._x0 b) || Qltb (O._x1 b) (_position s)
       || contains Qeq_bool (_position s) (map _position (O._supports b))
    then (b, Raised ValueError)
    else O.add_supports (O.set_supports b (O._supports b ++ [s])) rest.
Proof.
  cbn [O.add_supports].
  destruct (Qltb (_position s) (O._x0 b) || Qltb (O._x1 b) (_position s));
    [reflexivity|]. cbn [orb].
  destruct (O._supports b) as [|s0 l0]; [reflexivity|].
  destruct (contains Qeq_bool (_position s) (map _position (s0 :: l0)));
    reflexivity.
Qed.

Lemma forget_add_supports (b : O.Beam foreign) supports :
  O.forget (fst (O.add_supports b supports))
  = fst (add_supports (O.forget b) supports).
Proof.
  revert b. induction supports as [|s rest IH]; intros b; [reflexivity|].
  rewrite open_add_supports_cons, add_supports_cons.
  unfold positions. cbn [O.forget _x0 _x1 _supports].
  destruct (Qltb (_position s) (O._x0 b) || Qltb (O._x1 b) (_position s)
            || contains Qeq_bool (_position s)
                 (map _position (O._supports b))); [reflexivity|].
  now rewrite IH.
Qed.

Lemma forget_remove_supports (b : O.Beam foreign) supports remove_all :
  O.forget (fst (O.remove_supports b supports remove_all))
  = fst (remove_supports (O.forget b) supports remove_all).
Proof.
  unfold O.remove_supports, remove_supports.
  destruct remove_all; reflexivity.
Qed.

Lemma forget_add_query_points (b : O.Beam foreign) x_coords :
  O.forget (fst (O.add_query_points b x_coords))
  = fst (add_query_points (O.forget b) x_coords).
Proof.
  revert b. induction x_coords as [|x rest IH]; intros b; [reflexivity|].
  cbn [O.add_query_points add_query_points O.forget _x0 _x1].
  destruct (Qle_bool (O._x0 b) x && Qle_bool x (O._x1 b)); [|reflexivity].
  now rewrite IH.
Qed.

Lemma forget_remove_query_points (b : O.Beam foreign) x_coords remove_all :
  O.forget (fst (O.remove_query_points b x_coords remove_all))
  = fst (remove_query_points (O.forget b) x_coords remove_all).
Proof.
  unfold O.remove_query_points, remove_query_points.
  destruct remove_all; [reflexivity|].
  revert b. induction x_coords as [|x rest IH]; intros b; [reflexivity|].
  cbn [O.remove_query_points_loop remove_query_points_loop O.forget _query].
  destruct (contains Qeq_bool x (O._query b)); [|reflexivity].
  now rewrite IH.
Qed.

(** [analyse] hands the beam back as it got it, and never completes. *)
Lemma analyse_raises (b : O.Beam foreign) :
  fst (O.analyse assembles b) = b /\ snd (O.analyse assembles b) <> O.Analysed.
Proof.
  unfold O.analyse.
  destruct (analyse_preconditions (O.forget b));
    [destruct (forallb (O.readable assembles) (O._loads b))|];
    split; (reflexivity || discriminate).
Qed.

(** *** What every sequence of calls keeps *)



Lemma perform_sound (span : Q) (b : O.Beam foreign) (c : O.call foreign) :
  Examples.sound span (O.forget b) ->
  Examples.sound span (O.forget (O.perform foreign_equal assembles b c)).
Proof.
  intros H. destruct c; cbn [O.perform].
  - now rewrite forget_add_loads.
  - now rewrite forget_remove_loads.
  - rewrite forget_add_supports. now apply sound_add_supports.
  - rewrite forget_remove_supports. now apply sound_remove_supports.
  - rewrite forget_add_query_points. now apply sound_add_query_points.
  - rewrite forget_remove_query_points. now apply sound_remove_query_points.
  - now rewrite (proj1 (analyse_raises b)).
Qed.

Lemma session_sound (span : Q) (b : O.Beam foreign) (calls : list (O.call foreign)) :
  Examples.sound span (O.forget b) ->
  Examples.sound span (O.forget (O.session foreign_equal assembles b calls)).
Proof.
  unfold O.session. revert b.
  induction calls as [|c calls IH]; intros b H; [exact H|].
  cbn [fold_left]. apply IH. now apply perform_sound.
Qed.

Lemma new_Beam_sound (span E I A : Q) (b0 : O.Beam foreign) :
  O.new_Beam span E I A = Ok b0 ->
  0 < span /\ Examples.sound span (O.forget b0) /\
  O._loads b0 = [] /\
  results (O.forget b0) = ([], [], [], [], None, None).
Proof.
  unfold O.new_Beam. intros H0.
  unfold assert_strictly_positive_number at 1 in H0.
  destruct (Qle_bool span 0) eqn:Es; [discriminate|].
  apply Qle_bool_false_iff in Es. split; [exact Es|].
  cbn [bind] in H0.
  destruct (assert_strictly_positive_number E); [|discriminate].
  destruct (assert_strictly_positive_number I); [|discriminate].
  destruct (assert_strictly_positive_number A); [|discriminate].
  cbn [bind] in H0. injection H0 as <-.
  split; [|split; reflexivity].
  unfold Examples.sound, positions.
  cbn [O.forget _x0 _x1 _loads _reactions _query _supports map distinct].
  do 5 (split; [reflexivity|]). split; intros ? [].
Qed.

(** *** Loads on the beam *)

Lemma add_loads_foreign (b : O.Beam foreign) loads :
  Forall (fun o => O.is_foreign o = true) (O._loads b) ->
  Forall (fun o => O.is_foreign o = true) (O._loads (fst (O.add_loads b loads))).
Proof.
  revert b. induction loads as [|load rest IH]; intros b H; [exact H|].
  cbn [O.add_loads]. unfold unpack_pair, getitem.
  destruct load as [l|f].
  - destruct (load_class l); cbn [is_distributed is_point fst]; exact H.
  - apply IH. cbn [O._loads O.set_loads].
    apply Forall_app. split; [exact H|]. now constructor.
Qed.

Lemma remove_first_forall {A : Type} (P : A -> Prop) (eqb : A -> A -> bool)
  (x : A) (l : list A) :
  Forall P l -> Forall P (remove_first eqb x l).
Proof.
  induction 1 as [|h t Hh Ht IH]; cbn [remove_first]; [constructor|].
  destruct (eqb h x); [exact Ht|now constructor].
Qed.

Lemma remove_loads_foreign (b : O.Beam foreign) loads remove_all :
  Forall (fun o => O.is_foreign o = true) (O._loads b) ->
  Forall (fun o => O.is_foreign o = true)
    (O._loads (fst (O.remove_loads foreign_equal b loads remove_all))).
Proof.
  unfold O.remove_loads. destruct remove_all; cbn [fst]; [constructor|].
  revert b. induction loads as [|load rest IH]; intros b H; cbn [fold_left];
    [exact H|].
  apply IH.
  destruct (contains (O.matches foreign_equal) load (O._loads b));
    [|exact H].
  cbn [O._loads O.set_loads]. now apply remove_first_forall.
Qed.

Lemma loads_kept_by_supports (b : O.Beam foreign) supports :
  O._loads (fst (O.add_supports b supports)) = O._loads b.
Proof.
  revert b. induction supports as [|s rest IH]; intros b; [reflexivity|].
  rewrite open_add_supports_cons.
  destruct (Qltb (_position s) (O._x0 b) || Qltb (O._x1 b) (_position s)
            || contains Qeq_bool (_position s)
                 (map _position (O._supports b))); [reflexivity|].
  now rewrite IH.
Qed.

Lemma loads_kept_by_query_points (b : O.Beam foreign) x_coords :
  O._loads (fst (O.add_query_points b x_coords)) = O._loads b.
Proof.
  revert b. induction x_coords as [|x rest IH]; intros b; [reflexivity|].
  cbn [O.add_query_points].
  destruct (Qle_bool (O._x0 b) x && Qle_bool x (O._x1 b)); [|reflexivity].
  now rewrite IH.
Qed.

Lemma loads_kept_by_removed_query_points (b : O.Beam foreign) x_coords remove_all :
  O._loads (fst (O.remove_query_points b x_coords remove_all)) = O._loads b.
Proof.
  unfold O.remove_query_points. destruct remove_all; [reflexivity|].
  revert b. induction x_coords as [|x rest IH]; intros b; [reflexivity|].
  cbn [O.remove_query_points_loop].
  destruct (contains Qeq_bool x (O._query b)); [|reflexivity].
  now rewrite IH.
Qed.

Lemma perform_foreign (b : O.Beam foreign) (c : O.call foreign) :
  Forall (fun o => O.is_foreign o = true) (O._loads b) ->
  Forall (fun o => O.is_foreign o = true) (O._loads (O.perform foreign_equal assembles b c)).
Proof.
  intros H. destruct c; cbn [O.perform].
  - now apply add_loads_foreign.
  - now apply remove_loads_foreign.
  - now rewrite loads_kept_by_supports.
  - unfold O.remove_supports. destruct remove_all; exact H.
  - now rewrite loads_kept_by_query_points.
  - now rewrite loads_kept_by_removed_query_points.
  - now rewrite (proj1 (analyse_raises b)).
Qed.

Lemma session_foreign (b : O.Beam foreign) (calls : list (O.call foreign)) :
  Forall (fun o => O.is_foreign o = true) (O._loads b) ->
  Forall (fun o => O.is_foreign o = true) (O._loads (O.session foreign_equal assembles b calls)).
Proof.
  unfold O.session. revert b.
  induction calls as [|c calls IH]; intros b H; [exact H|].
  cbn [fold_left]. apply IH. now apply perform_foreign.
Qed.


(** X17: whatever is added to and removed from a new beam, in any order
    and whether the calls return or raise, and whenever [analyse] is
    called in between, the beam keeps its span, no two supports share a
    position, every support and every query point lies within the
    span, and no instance of the module's load classes is ever in the
    load list: what the list holds are objects of other types, which
    [add_loads] takes untested. *)
Theorem every_session_keeps_the_beam_sound (span E I A : Q)
  (b0 : O.Beam foreign) (calls : list (O.call foreign)) :
  O.new_Beam span E I A = Ok b0 ->
  let b := O.session foreign_equal assembles b0 calls in
  0 < span /\ O._x0 b = 0 /\ O._x1 b = span /\
  distinct (map _position (O._supports b)) = true /\
  (forall s, In s (O._supports b) ->
             0 <= _position s /\ _position s <= span) /\
  (forall x, In x (O._query b) -> 0 <= x /\ x <= span) /\
  Forall (fun o => O.is_foreign o = true) (O._loads b).
Proof.
  intros H0 b.
  destruct (new_Beam_sound _ _ _ _ _ H0) as (Hspan & Hs0 & Hl0 & _).
  pose proof (session_sound span b0 calls Hs0) as Hs. fold b in Hs.
  destruct Hs as (H1 & H2 & _ & _ & Hd & Hsup & Hq).
  split; [exact Hspan|]. split; [exact H1|]. split; [exact H2|].
  split; [exact Hd|]. split; [exact Hsup|]. split; [exact Hq|].
  apply session_foreign. rewrite Hl0. constructor.
Qed.

End Objects.

Lemma pin_and_roller_are_built :
  new_Support 1%nat 0 [1; 1; 0]%Z None None = Ok O.pin /\
  new_Support 2%nat 5 [0; 1; 0]%Z None None = Ok O.roller.
Proof. split; reflexivity. Qed.


Lemma every_session_keeps_the_beam_sound_witness :
  O.new_Beam 5 200000 9050000 2300 = Ok O.beam_of_span_5 /\
  let b := O.session O.by_identity O.unreadable O.beam_of_span_5 O.a_visit in
  distinct (map _position (O._supports b)) = true /\
  Forall (fun o => O.is_foreign o = true) (O._loads b).
Proof.
  assert (H : O.new_Beam 5 200000 9050000 2300 = Ok O.beam_of_span_5)
    by reflexivity.
  split; [exact H|].
  destruct (every_session_keeps_the_beam_sound O.by_identity O.unreadable
              5 200000 9050000 2300 O.beam_of_span_5 O.a_visit H)
    as (_ & _ & _ & Hd & _ & _ & Hf).
  cbv zeta. split; [exact Hd|exact Hf].
Defined.

End OpenbeamFacts.
